(** * Phenology metrics of [deafrica_tools/temporal.py]

    A shallow embedding of [allNaN_arg], the landmark extractors
    [_vpos] .. [_ros] and the orchestrator [xr_phenology], followed by the
    properties of the specification stated over that embedding.

    Numeric model.  A cell of a [DataArray] is an IEEE-754 binary64 number,
    modelled by [spec_float] of the Standard Library: signed zeros,
    infinities, one NaN, and finite numbers by sign, mantissa and exponent.
    Arithmetic is the library's reference arithmetic of that format, so
    every sum, difference, product and quotient is rounded to nearest even
    as numpy rounds it.  [astype(float32)] keeps the binary64 value.

    Grid model.  The spatial dimensions are flattened: a [DataArray] is a
    time coordinate and one time series per pixel. *)

From Stdlib Require Import String ZArith QArith Bool Lia List SpecFloat.
Import ListNotations.
Open Scope string_scope.
Open Scope list_scope.
Open Scope Z_scope.

(* ================================================================== *)
(** ** Errors raised by the code and by the libraries it calls *)

Inductive exn : Type :=
| TypeError (msg : string)
| ValueError (msg : string)
| IndexError
| KeyError (key : string)
| AttributeError (attr : string)
| UnboundLocalError (name : string).

Inductive result (A : Type) : Type :=
| Ok (a : A)
| Raise (e : exn).
Arguments Ok {A} a.
Arguments Raise {A} e.

Definition bind {A B} (r : result A) (k : A -> result B) : result B :=
  match r with
  | Ok a => k a
  | Raise e => Raise e
  end.

Notation "'let*' x ':=' r 'in' k" := (bind r (fun x => k))
  (at level 10, x pattern, r at level 100, k at level 200).

Fixpoint mapM {A B} (f : A -> result B) (l : list A) : result (list B) :=
  match l with
  | [] => Ok []
  | a :: l' =>
      let* b := f a in
      let* bs := mapM f l' in
      Ok (b :: bs)
  end.

(* ================================================================== *)
(** ** Floating-point cells *)

Definition fval : Type := spec_float.

Notation NaN := S754_nan.
Notation PInf := (S754_infinity false).
Notation NInf := (S754_infinity true).

Definition is_nan (x : fval) : bool :=
  match x with NaN => true | _ => false end.

(** Neither NaN nor an infinity. *)
Definition is_finite (x : fval) : bool :=
  match x with
  | S754_zero _ | S754_finite _ _ _ => true
  | _ => false
  end.

(** The conversion of an integer to binary64. *)
Definition of_Z (z : Z) : fval := binary_normalize 53 1024 z 0 false.

Definition fadd (x y : fval) : fval := SFadd 53 1024 x y.
Definition fsub (x y : fval) : fval := SFsub 53 1024 x y.
Definition fmul (x y : fval) : fval := SFmul 53 1024 x y.

(** Division as numpy performs it on floats: a zero divisor gives an
    infinity, or NaN for 0/0; nothing is raised. *)
Definition fdiv (x y : fval) : fval := SFdiv 53 1024 x y.

Definition fneg (x : fval) : fval := SFopp x.
Definition fabs (x : fval) : fval := SFabs x.

(** The binary64 number nearest to a fraction whose numerator and
    denominator are below 2^53: how a decimal literal such as 0.9 is
    written, as [Fin (9#10)]. *)
Definition Fin (q : Q) : fval := fdiv (of_Z (Qnum q)) (of_Z (Zpos (Qden q))).

(** [x < y]; false as soon as one side is NaN. *)
Definition fltb (x y : fval) : bool := SFltb x y.

(** [x == y]; false as soon as one side is NaN. *)
Definition feqb (x y : fval) : bool := SFeqb x y.

Definition fgtb (x y : fval) : bool := fltb y x.

(** Truth value of a number used as a condition: everything except zero is
    true, NaN included. *)
Definition truthy (x : fval) : bool :=
  match x with
  | S754_zero _ => false
  | _ => true
  end.

(** [da.where(cond)]: keep the cell where the condition holds, NaN
    elsewhere. *)
Definition where_ (cond : bool) (x : fval) : fval :=
  if cond then x else NaN.

(** [da.fillna(v)] on one cell. *)
Definition fillna (v x : fval) : fval :=
  if is_nan x then v else x.

(* ================================================================== *)
(** ** Integer casts *)

(** [astype(int16)] of an integer: two's-complement wrap-around. *)
Definition to_int16 (z : Z) : Z := (z + 32768) mod 65536 - 32768.

(** What [astype(int16)] makes of a cell that is not a finite number.  C
    leaves that conversion undefined; numpy on x86-64 and on AArch64 stores
    0. *)
Definition invalid_int16 : Z := 0.

(** The integer part of a number, toward zero. *)
Definition truncate (x : fval) : option Z :=
  match x with
  | S754_zero _ => Some 0
  | S754_finite s m e =>
      let a := match e with
               | Zneg p => Zpos m / 2 ^ Zpos p
               | _ => Zpos m * 2 ^ e
               end in
      Some (if s then - a else a)
  | _ => None
  end.

(** [astype(int16)] of a float: truncation toward zero, then wrap-around. *)
Definition float_to_int16 (x : fval) : Z :=
  match truncate x with
  | Some z => to_int16 z
  | None => invalid_int16
  end.

(* ================================================================== *)
(** ** Timestamps and day of year

    A [datetime64[ns]] timestamp is the number of nanoseconds since
    1970-01-01T00:00.  [dayofyear] is [.dt.dayofyear] of pandas in the
    proleptic Gregorian calendar: the day count is split into 400-year
    eras that start on 1 March, which puts the leap day last. *)

Definition ns_per_day : Z := 86400000000000.

Definition days_of_ns (t : Z) : Z := t / ns_per_day.

Definition is_leap (y : Z) : bool :=
  (y mod 4 =? 0) && (negb (y mod 100 =? 0) || (y mod 400 =? 0)).

(** Year of the era (0..399) of a day of the era (0..146096). *)
Definition year_of_era (doe : Z) : Z :=
  (doe - doe / 1460 + doe / 36524 - doe / 146096) / 365.

(** Day of the March-based year (0 = 1 March). *)
Definition day_of_march_year (doe : Z) : Z :=
  let yoe := year_of_era doe in
  doe - (365 * yoe + yoe / 4 - yoe / 100).

Definition dayofyear_of_days (d : Z) : Z :=
  let z := d + 719468 in
  let era := z / 146097 in
  let doe := z mod 146097 in
  let dmy := day_of_march_year doe in
  if 306 <=? dmy then dmy - 305
  else dmy + 60 + (if is_leap (year_of_era doe + era * 400) then 1 else 0).

Definition dayofyear (t : Z) : Z := dayofyear_of_days (days_of_ns t).

(** Days since 1970-01-01 of a civil date, to write timestamps down. *)
Definition days_from_civil (y m d : Z) : Z :=
  let y' := if m <=? 2 then y - 1 else y in
  let era := y' / 400 in
  let yoe := y' mod 400 in
  let mp := if 2 <? m then m - 3 else m + 9 in
  let doy := (153 * mp + 2) / 5 + d - 1 in
  era * 146097 + (yoe * 365 + yoe / 4 - yoe / 100 + doy) - 719468.

Definition date (y m d : Z) : Z := days_from_civil y m d * ns_per_day.

(* ================================================================== *)
(** ** Labelled arrays *)

(** The input: a time coordinate and, for every pixel, its series along
    time.  [is_dask] tells whether [dask.is_dask_collection] holds. *)
Record DataArray : Type := mkDataArray {
  time : list Z;
  pixels : list (list fval);
  is_dask : bool
}.

Definition well_formed (da : DataArray) : Prop :=
  Forall (fun s => length s = length (time da)) (pixels da).

(** A reduced array: one cell per pixel and, when the array carries one,
    the per-pixel [time] coordinate left by [isel]. *)
Record Arr (A : Type) : Type := mkArr {
  data : list A;
  tcoord : option (list Z)
}.
Arguments mkArr {A} data tcoord.
Arguments data {A} a.
Arguments tcoord {A} a.

Fixpoint map2 {A B C} (f : A -> B -> C) (l : list A) (m : list B) : list C :=
  match l, m with
  | a :: l', b :: m' => f a b :: map2 f l' m'
  | _, _ => []
  end.

Fixpoint list_Z_eqb (l m : list Z) : bool :=
  match l, m with
  | [], [] => true
  | a :: l', b :: m' => (a =? b) && list_Z_eqb l' m'
  | _, _ => false
  end.

(** Coordinates of the result of a binary operation: a [time] coordinate
    found on one side only is kept, equal ones are kept, conflicting ones
    are dropped. *)
Definition merge_tcoord (c1 c2 : option (list Z)) : option (list Z) :=
  match c1, c2 with
  | None, c | c, None => c
  | Some a, Some b => if list_Z_eqb a b then Some a else None
  end.

Definition binop {A B C} (f : A -> B -> C) (x : Arr A) (y : Arr B) : Arr C :=
  mkArr (map2 f (data x) (data y)) (merge_tcoord (tcoord x) (tcoord y)).

(* ================================================================== *)
(** ** Reductions along time, as xarray hands them to numpy *)

Definition zero_size : exn :=
  ValueError "zero-size array to reduction operation".

Definition all_nan_slice : exn :=
  ValueError "All-NaN slice encountered".

Definition empty_argmax : exn :=
  ValueError "attempt to get argmax of an empty sequence".

Definition empty_argmin : exn :=
  ValueError "attempt to get argmin of an empty sequence".

(** One step of a maximum that skips NaN. *)
Definition max_step (acc x : fval) : fval :=
  if is_nan x then acc
  else if is_nan acc then x
  else if fltb acc x then x else acc.

Definition min_step (acc x : fval) : fval :=
  if is_nan x then acc
  else if is_nan acc then x
  else if fltb x acc then x else acc.

(** [nanmax], [nanmin]: NaN when every cell is NaN. *)
Definition nanmax (l : list fval) : fval := fold_left max_step l NaN.
Definition nanmin (l : list fval) : fval := fold_left min_step l NaN.

(** [da.max()] and [da.min()] over every cell of the array. *)
Definition global_nanmax (g : list (list fval)) : result fval :=
  match concat g with
  | [] => Raise zero_size
  | c => Ok (nanmax c)
  end.

Definition global_nanmin (g : list (list fval)) : result fval :=
  match concat g with
  | [] => Raise zero_size
  | c => Ok (nanmin c)
  end.

(** Left-to-right scan for the first position of the greatest cell:
    [best] at [besti] is the candidate so far, [i] the position of the head
    of [l]. *)
Fixpoint argmax_scan (best : fval) (besti i : nat) (l : list fval) : nat :=
  match l with
  | [] => besti
  | x :: l' =>
      if fltb best x then argmax_scan x i (S i) l'
      else argmax_scan best besti (S i) l'
  end.

Fixpoint argmin_scan (best : fval) (besti i : nat) (l : list fval) : nat :=
  match l with
  | [] => besti
  | x :: l' =>
      if fltb x best then argmin_scan x i (S i) l'
      else argmin_scan best besti (S i) l'
  end.

Definition argmax (l : list fval) : nat :=
  match l with
  | [] => 0%nat
  | x :: l' => argmax_scan x 0 1 l'
  end.

Definition argmin (l : list fval) : nat :=
  match l with
  | [] => 0%nat
  | x :: l' => argmin_scan x 0 1 l'
  end.

(** [nanargmax] of numpy: NaN cells are replaced by minus infinity, a slice
    that was all NaN is refused, and the plain [argmax] runs on the rest. *)
Definition nanargmax (l : list fval) : result nat :=
  match l with
  | [] => Raise empty_argmax
  | _ => if forallb is_nan l then Raise all_nan_slice
         else Ok (argmax (map (fillna NInf) l))
  end.

Definition nanargmin (l : list fval) : result nat :=
  match l with
  | [] => Raise empty_argmin
  | _ => if forallb is_nan l then Raise all_nan_slice
         else Ok (argmin (map (fillna PInf) l))
  end.

(** Python indexing of a sequence: a negative index counts from the end,
    an index outside the sequence raises. *)
Definition index {A} (l : list A) (i : Z) : result A :=
  let n := Z.of_nat (length l) in
  let j := if i <? 0 then i + n else i in
  if (0 <=? j) && (j <? n) then
    match nth_error l (Z.to_nat j) with
    | Some a => Ok a
    | None => Raise IndexError
    end
  else Raise IndexError.

(** Insertion sort of cells that are not NaN, ascending. *)
Fixpoint insert_sorted (x : fval) (l : list fval) : list fval :=
  match l with
  | [] => [x]
  | y :: l' => if fltb y x then y :: insert_sorted x l' else x :: l
  end.

Definition sort_cells (l : list fval) : list fval :=
  fold_right insert_sorted [] l.

(** [nanmedian]: the middle cell of the sorted non-NaN cells, the mean of
    the two middle ones when their number is even, NaN when there is
    none. *)
Definition nanmedian (l : list fval) : fval :=
  let s := sort_cells (filter (fun x => negb (is_nan x)) l) in
  let n := length s in
  match n with
  | O => NaN
  | _ =>
      if Nat.even n then
        fdiv (fadd (nth (n / 2 - 1) s NaN) (nth (n / 2) s NaN)) (Fin 2)
      else nth (n / 2) s NaN
  end.

(* ================================================================== *)
(** ** [differentiate]: [numpy.gradient] along time, [edge_order = 1] *)

Definition distances_mismatch : exn :=
  ValueError
    "when 1d, distances must match the length of the corresponding dimension".

(** Second-order differences at the interior points.  [xs] and [fs] start
    one position before the point computed first; [ax_dx] is the common
    spacing when the spacing is uniform. *)
Fixpoint gradient_interior (uniform : bool) (ax_dx : fval)
    (xs fs : list fval) : list fval :=
  match xs, fs with
  | x0 :: ((x1 :: x2 :: _) as xs'), f0 :: ((f1 :: f2 :: _) as fs') =>
      (if uniform then fdiv (fsub f2 f0) (fmul (Fin 2) ax_dx)
       else
         let dx1 := fsub x1 x0 in
         let dx2 := fsub x2 x1 in
         let a := fdiv (fneg dx2) (fmul dx1 (fadd dx1 dx2)) in
         let b := fdiv (fsub dx2 dx1) (fmul dx1 dx2) in
         let c := fdiv dx1 (fmul dx2 (fadd dx1 dx2)) in
         fadd (fadd (fmul a f0) (fmul b f1)) (fmul c f2))
      :: gradient_interior uniform ax_dx xs' fs'
  | _, _ => []
  end.

(** [np.diff]. *)
Fixpoint diffs (xs : list fval) : list fval :=
  match xs with
  | x0 :: ((x1 :: _) as xs') => fsub x1 x0 :: diffs xs'
  | _ => []
  end.

(** [np.gradient(fs, xs)].  The spacing is read as uniform when every
    difference equals the first one, [diffx[0]], which does not exist for
    fewer than two coordinates. *)
Definition gradient (xs fs : list fval) : result (list fval) :=
  if negb (length xs =? length fs)%nat then Raise distances_mismatch
  else
    match diffs xs with
    | [] => Raise IndexError
    | dx0 :: _ =>
        let diffx := diffs xs in
        let uniform := forallb (fun d => feqb d dx0) diffx in
        let n := length fs in
        let first := fdiv (fsub (nth 1 fs NaN) (nth 0 fs NaN)) dx0 in
        let last :=
          fdiv (fsub (nth (n - 1) fs NaN) (nth (n - 2) fs NaN))
               (if uniform then dx0 else last diffx NaN) in
        Ok (first :: gradient_interior uniform dx0 xs fs ++ [last])
    end.

Definition list_min (l : list Z) : Z :=
  match l with
  | [] => 0
  | t :: l' => fold_left Z.min l' t
  end.

(** The datetime coordinate enters the gradient as the float count of
    nanoseconds since its earliest timestamp. *)
Definition differentiate (ts : list Z) (s : list fval) : result (list fval) :=
  gradient (map (fun t => of_Z (t - list_min ts)) ts) s.

(* ================================================================== *)
(** ** [allNaN_arg]

    The axis is the time axis, the only one the module passes.  The result
    is a float array: the index where the pixel has one, NaN where the pixel
    is all NaN.  [None] stands for the Python [None] that falls out of the
    function for any other [stat]. *)

Definition allNaN_arg (da : list (list fval)) (stat : string)
  : result (option (list fval)) :=
  let mask := map (forallb is_nan) da in
  if String.eqb stat "max" then
    let* lo := global_nanmin da in
    let y := map (map (fillna (fsub lo (Fin 1)))) da in
    let* y := mapM nanargmax y in
    Ok (Some (map2 (fun m i => where_ (negb m) (of_Z (Z.of_nat i))) mask y))
  else if String.eqb stat "min" then
    let* hi := global_nanmax da in
    let y := map (map (fillna (fadd hi (Fin 1)))) da in
    let* y := mapM nanargmin y in
    Ok (Some (map2 (fun m i => where_ (negb m) (of_Z (Z.of_nat i))) mask y))
  else Ok None.

(** [.astype("int16")] on what [allNaN_arg] returned. *)
Definition astype_int16 (r : option (list fval)) : result (list Z) :=
  match r with
  | Some y => Ok (map float_to_int16 y)
  | None => Raise (AttributeError "astype")
  end.

(* ================================================================== *)
(** ** Landmark extractors *)

(** [da.max("time")]: the reduction drops the [time] coordinate, and numpy
    refuses an axis without entries. *)
Definition _vpos (da : DataArray) : result (Arr fval) :=
  match time da with
  | [] => Raise zero_size
  | _ => Ok (mkArr (map nanmax (pixels da)) None)
  end.

(** [da.isel(time=da.argmax("time")).time.dt.dayofyear]: the result keeps
    the selected timestamps as its [time] coordinate. *)
Definition _pos (da : DataArray) : result (Arr Z) :=
  let* idx := mapM nanargmax (pixels da) in
  let* t := mapM (fun i => index (time da) (Z.of_nat i)) idx in
  Ok (mkArr (map dayofyear t) (Some t)).

(** [da.min("time")]. *)
Definition _trough (da : DataArray) : result (Arr fval) :=
  match time da with
  | [] => Raise zero_size
  | _ => Ok (mkArr (map nanmin (pixels da)) None)
  end.

(** [vpos - trough]. *)
Definition _aos (vpos trough : Arr fval) : Arr fval :=
  binop fsub vpos trough.

(** [x.time] of a reduced array. *)
Definition time_of {A} (x : Arr A) : result (list Z) :=
  match tcoord x with
  | Some t => Ok t
  | None => Raise (AttributeError "time")
  end.

(** [isel(time=idx)] with one index per pixel: the selected cell and the
    selected timestamp of every pixel. *)
Definition isel (ts : list Z) (g : list (list fval)) (idx : list Z)
  : result (Arr fval) :=
  let* v := mapM (fun si => index (fst si) (snd si)) (combine g idx) in
  let* t := mapM (index ts) idx in
  Ok (mkArr v (Some t)).

(** [da.where(da.time < pos.time)] on one pixel whose peak is at [peak]. *)
Definition greening_side (ts : list Z) (peak : Z) (s : list fval)
  : list fval :=
  map2 (fun t x => where_ (t <? peak) x) ts s.

(** The rising samples of the greening side of one pixel:
    [pos_greenup] of [_vsos]. *)
Definition pos_greenup (ts : list Z) (peak : Z) (s : list fval)
  : result (list fval) :=
  let greenup := greening_side ts peak s in
  let* green_deriv := differentiate ts greenup in
  let pos_green_deriv := map (fun d => where_ (fgtb d (Fin 0)) d) green_deriv in
  Ok (map2 (fun x d => where_ (negb (is_nan d)) x) greenup pos_green_deriv).

(** [x - x.median("time")] on one pixel. *)
Definition distance (s : list fval) : list fval :=
  let median := nanmedian s in
  map (fun x => fsub x median) s.

(** [idx1] is [idx] after the statement [if method_sos == "first"], [idx2]
    after the statement [if method_sos == "median"]; [None] is a local
    variable that was never assigned. *)
Definition _vsos (da : DataArray) (pos : Arr Z) (method_sos : string)
  : result (Arr fval) :=
  let* peaks := time_of pos in
  let* pos_greenup :=
    mapM (fun sp => pos_greenup (time da) (snd sp) (fst sp))
         (combine (pixels da) peaks) in
  let distance := map distance pos_greenup in
  let* idx1 :=
    if String.eqb method_sos "first" then
      let* r := allNaN_arg distance "min" in
      let* i := astype_int16 r in Ok (Some i)
    else Ok None in
  let* idx2 :=
    if String.eqb method_sos "median" then
      let* r := allNaN_arg (map (map fabs) distance) "min" in
      let* i := astype_int16 r in Ok (Some i)
    else Ok idx1 in
  match idx2 with
  | Some idx => isel (time da) pos_greenup idx
  | None => Raise (UnboundLocalError "idx")
  end.

(** [vsos.time.dt.dayofyear]. *)
Definition _sos (vsos : Arr fval) : result (Arr Z) :=
  let* t := time_of vsos in
  Ok (mkArr (map dayofyear t) (Some t)).

(** A boolean cell read as a number, as [isnan] reads it. *)
Definition of_bool (b : bool) : fval := if b then Fin 1 else Fin 0.

(** [da.where(da.time > pos.time)] on one pixel whose peak is at [peak]. *)
Definition senescing_side (ts : list Z) (peak : Z) (s : list fval)
  : list fval :=
  map2 (fun t x => where_ (peak <? t) x) ts s.

(** The samples of the senescing side of one pixel that [_veos] keeps:
    its [neg_senesce]. *)
Definition neg_senesce (ts : list Z) (peak : Z) (s : list fval)
  : result (list fval) :=
  let senesce := senescing_side ts peak s in
  let* senesce_deriv := differentiate ts senesce in
  let neg_senesce_deriv :=
    map (fun d => where_ (negb (is_nan (of_bool (fltb d (Fin 0))))) d)
        senesce_deriv in
  Ok (map2 (fun x d => where_ (truthy d) x) senesce neg_senesce_deriv).

(** As [_vsos], on [neg_senesce]. *)
Definition _veos (da : DataArray) (pos : Arr Z) (method_eos : string)
  : result (Arr fval) :=
  let* peaks := time_of pos in
  let* neg_senesce :=
    mapM (fun sp => neg_senesce (time da) (snd sp) (fst sp))
         (combine (pixels da) peaks) in
  let distance := map distance neg_senesce in
  let* idx1 :=
    if String.eqb method_eos "last" then
      let* r := allNaN_arg distance "min" in
      let* i := astype_int16 r in Ok (Some i)
    else Ok None in
  let* idx2 :=
    if String.eqb method_eos "median" then
      let* r := allNaN_arg (map (map fabs) distance) "min" in
      let* i := astype_int16 r in Ok (Some i)
    else Ok idx1 in
  match idx2 with
  | Some idx => isel (time da) neg_senesce idx
  | None => Raise (UnboundLocalError "idx")
  end.

(** [veos.time.dt.dayofyear]. *)
Definition _eos (veos : Arr fval) : result (Arr Z) :=
  let* t := time_of veos in
  Ok (mkArr (map dayofyear t) (Some t)).

(** [x.where(cond)] on an integer array: the kept cells become floats. *)
Definition where_int (cond : Arr bool) (x : Arr Z) : Arr fval :=
  binop (fun c v => where_ c (of_Z v)) cond x.

(** [xr.where(cond, x, y)]. *)
Definition xr_where (cond : Arr bool) (x : Arr Z) (y : Arr fval) : Arr fval :=
  mkArr (map2 (fun (c : bool) (xy : Z * fval) =>
                 if c then of_Z (fst xy) else snd xy)
              (data cond) (combine (data x) (data y)))
        (merge_tcoord (tcoord cond) (merge_tcoord (tcoord x) (tcoord y))).

Definition map_arr {A B} (f : A -> B) (x : Arr A) : Arr B :=
  mkArr (map f (data x)) (tcoord x).

(** [last_doy] is [da.time.dt.dayofyear.values[-1]].  The third argument
    of [xr.where] is a float array, and so is the result. *)
Definition _los (da : DataArray) (eos sos : Arr Z) : result (Arr fval) :=
  let los := binop Z.sub eos sos in
  let* last_doy := index (map dayofyear (time da)) (-1) in
  let neg := map_arr (fun l => l <? 0) los in
  Ok (xr_where
        (map_arr (fun l => 0 <=? l) los)
        los
        (map_arr (fadd (of_Z last_doy))
                 (binop fsub (where_int neg eos) (where_int neg sos)))).

(** [(vpos - vsos) / (pos - sos)]: a float array over an integer one. *)
Definition _rog (vpos vsos : Arr fval) (pos sos : Arr Z) : Arr fval :=
  binop (fun n d => fdiv n (of_Z d)) (binop fsub vpos vsos) (binop Z.sub pos sos).

(** [(veos - vpos) / (eos - pos)]. *)
Definition _ros (veos vpos : Arr fval) (eos pos : Arr Z) : Arr fval :=
  binop (fun n d => fdiv n (of_Z d)) (binop fsub veos vpos) (binop Z.sub eos pos).

(* ================================================================== *)
(** ** The output collection *)

Inductive dtype : Type := int16 | float32.

(** The cells of one variable, by dtype. *)
Inductive cells : Type :=
| Ints (l : list Z)
| Floats (l : list fval).

(** A variable of the collection with the [time] coordinate it carries. *)
Record Stat : Type := mkStat {
  values : cells;
  vtime : option (list Z)
}.

(** An [xarray.Dataset]: its data variables in insertion order, and its
    [time] coordinate when it has one. *)
Record Dataset : Type := mkDataset {
  data_vars : list (string * cells);
  ds_time : option (list Z)
}.

Definition astype_float32 (x : Arr fval) : Stat :=
  mkStat (Floats (data x)) (tcoord x).

Definition astype_int16_of_int (x : Arr Z) : Stat :=
  mkStat (Ints (map to_int16 (data x))) (tcoord x).

Definition astype_int16_of_float (x : Arr fval) : Stat :=
  mkStat (Ints (map float_to_int16 (data x))) (tcoord x).

Fixpoint lookup {A} (k : string) (d : list (string * A)) : option A :=
  match d with
  | [] => None
  | (k', v) :: d' => if String.eqb k k' then Some v else lookup k d'
  end.

(** [d[k]] of a Python dict. *)
Definition getitem {A} (d : list (string * A)) (k : string) : result A :=
  match lookup k d with
  | Some v => Ok v
  | None => Raise (KeyError k)
  end.

(** [d[k] = v]: an existing key keeps its place. *)
Fixpoint upsert {A} (k : string) (v : A) (d : list (string * A))
  : list (string * A) :=
  match d with
  | [] => [(k, v)]
  | (k', v') :: d' =>
      if String.eqb k k' then (k, v) :: d' else (k', v') :: upsert k v d'
  end.

Definition to_dataset (name : string) (v : Stat) : Dataset :=
  mkDataset [(name, values v)] (vtime v).

(** [ds[name] = v]: a coordinate of [v] that the dataset already has is
    dropped from [v], a new one joins the dataset. *)
Definition setitem (ds : Dataset) (name : string) (v : Stat) : Dataset :=
  mkDataset (upsert name (values v) (data_vars ds))
            (match ds_time ds with
             | Some t => Some t
             | None => vtime v
             end).

(** [ds.drop("time")]: a name the dataset does not have is refused. *)
Definition drop_time (ds : Dataset) : result Dataset :=
  match ds_time ds with
  | Some _ => Ok (mkDataset (data_vars ds) None)
  | None =>
      Raise (ValueError
        "One or more of the specified variables cannot be found in this dataset")
  end.

Definition names (ds : Dataset) : list string := map fst (data_vars ds).

(* ================================================================== *)
(** ** [xr_phenology] *)

Definition version : Type := (nat * nat * nat)%type.

(** [version.parse(a) < version.parse(b)] on release numbers. *)
Definition version_ltb (a b : version) : bool :=
  let '(a1, a2, a3) := a in
  let '(b1, b2, b3) := b in
  (a1 <? b1)%nat
  || ((a1 =? b1)%nat && ((a2 <? b2)%nat
                         || ((a2 =? b2)%nat && (a3 <? b3)%nat))).

Definition stats_dtype : list (string * dtype) :=
  [ ("SOS", int16); ("POS", int16); ("EOS", int16); ("Trough", float32);
    ("vSOS", float32); ("vPOS", float32); ("vEOS", float32); ("LOS", int16);
    ("AOS", float32); ("ROG", float32); ("ROS", float32) ].

Definition default_stats : list string := map fst stats_dtype.

Definition mem (s : string) (l : list string) : bool :=
  existsb (String.eqb s) l.

(** What the dask branch returns: the template of the result and the call
    that [map_blocks] will make on every block once the result is
    computed. *)
Record Deferred : Type := mkDeferred {
  template : list (string * dtype);
  da_all_time : DataArray;
  kw_stats : list string;
  kw_method_sos : string;
  kw_method_eos : string
}.

Inductive Output : Type :=
| Computed (ds : Dataset)
| Scheduled (lazy_phenology : Deferred).

(** [da.where(~mask, other=0)] with [mask = da.isnull().all("time")]. *)
Definition zero_fill (da : DataArray) : DataArray :=
  let mask := map (forallb is_nan) (pixels da) in
  mkDataArray (time da)
    (map2 (fun (m : bool) s => if m then map (fun _ => Fin 0) s else s)
          mask (pixels da))
    (is_dask da).

(** The statistics of the zero-filled array, every one of them, cast and
    gathered in [stats_dict]. *)
Definition stats_dict (da : DataArray) (method_sos method_eos : string)
  : result (list (string * Stat)) :=
  let* vpos := _vpos da in
  let* pos := _pos da in
  let* trough := _trough da in
  let aos := _aos vpos trough in
  let* vsos := _vsos da pos method_sos in
  let* sos := _sos vsos in
  let* veos := _veos da pos method_eos in
  let* eos := _eos veos in
  let* los := _los da eos sos in
  let rog := _rog vpos vsos pos sos in
  let ros := _ros veos vpos eos pos in
  Ok [ ("SOS", astype_int16_of_int sos);
       ("EOS", astype_int16_of_int eos);
       ("vSOS", astype_float32 vsos);
       ("vPOS", astype_float32 vpos);
       ("Trough", astype_float32 trough);
       ("POS", astype_int16_of_int pos);
       ("vEOS", astype_float32 veos);
       ("LOS", astype_int16_of_float los);
       ("AOS", astype_float32 aos);
       ("ROG", astype_float32 rog);
       ("ROS", astype_float32 ros) ].

(** The loop [for stat in stats[1:]: ds[stat] = stats_dict[stat]]. *)
Fixpoint add_stats (d : list (string * Stat)) (ds : Dataset)
    (stats : list string) : result Dataset :=
  match stats with
  | [] => Ok ds
  | stat :: rest =>
      let* v := getitem d stat in
      add_stats d (setitem ds stat v) rest
  end.

(** From [ds = stats_dict[stats[0]].to_dataset(...)] to the [return]. *)
Definition assemble (d : list (string * Stat)) (stats : list string)
  : result Dataset :=
  let* first := index stats 0 in
  let* v := getitem d first in
  let* ds := add_stats d (to_dataset first v) (tl stats) in
  drop_time ds.

Definition bad_method_sos : exn :=
  ValueError "method_sos should be either 'median' or 'first'".

Definition bad_method_eos : exn :=
  ValueError "method_eos should be either 'median' or 'last'".

Definition no_dask : exn :=
  TypeError "Dask arrays are not currently supported by this function, run da.compute() before passing dataArray.".

(** [xr_version] is [xr.__version__].  Progress messages and the spatial
    reference, which is attached when there is one and skipped silently
    otherwise, are left out. *)
Definition xr_phenology (xr_version : version) (da : DataArray)
    (stats : list string) (method_sos method_eos : string) : result Output :=
  if is_dask da then
    if version_ltb xr_version (0, 16, 0)%nat then Raise no_dask
    else
      let* _ := index (time da) 0 in
      Ok (Scheduled
            (mkDeferred
               (filter (fun nd => mem (fst nd) stats) stats_dtype)
               da stats method_sos method_eos))
  else if negb (mem method_sos ["median"; "first"]) then Raise bad_method_sos
  else if negb (mem method_eos ["median"; "last"]) then Raise bad_method_eos
  else
    let da := zero_fill da in
    let* d := stats_dict da method_sos method_eos in
    let* ds := assemble d stats in
    Ok (Computed ds).

(* ================================================================== *)
(** ** [temporal_statistics]

    The numeric work is done by the hdstats library, which is not part of
    the module: its functions are parameters.  Each receives the array in
    (y, x, time) order, here one series per pixel, and returns one layer,
    or three for the Fourier statistics, which the module calls with
    [n = 3] and reads as [zz[:, :, 0]], [zz[:, :, 1]], [zz[:, :, 2]]. *)

Record Hdstats : Type := mkHdstats {
  discordance : list (list fval) -> result (list fval);
  fourier_std :
    list (list fval) -> result (list fval * list fval * list fval);
  fourier_mean :
    list (list fval) -> result (list fval * list fval * list fval);
  fourier_median :
    list (list fval) -> result (list fval * list fval * list fval);
  mean_change : list (list fval) -> result (list fval);
  median_change : list (list fval) -> result (list fval);
  mean_abs_change : list (list fval) -> result (list fval);
  complexity : list (list fval) -> result (list fval);
  mean_central_diff : list (list fval) -> result (list fval);
  number_peaks : list (list fval) -> result (list fval)
}.

(** What a function of the dictionary returns. *)
Inductive layers : Type :=
| One (l : list fval)
| Three (n1 n2 n3 : list fval).

Definition one_layer (f : list (list fval) -> result (list fval))
  (da : list (list fval)) : result layers :=
  let* l := f da in Ok (One l).

Definition three_layers
  (f : list (list fval) -> result (list fval * list fval * list fval))
  (da : list (list fval)) : result layers :=
  let* zz := f da in
  let '(n1, n2, n3) := zz in Ok (Three n1 n2 n3).

(** [stats_dict] of [temporal_statistics]. *)
Definition hd_stats_dict (hd : Hdstats)
  : list (string * (list (list fval) -> result layers)) :=
  [ ("discordance", one_layer (discordance hd));
    ("f_std", three_layers (fourier_std hd));
    ("f_mean", three_layers (fourier_mean hd));
    ("f_median", three_layers (fourier_median hd));
    ("mean_change", one_layer (mean_change hd));
    ("median_change", one_layer (median_change hd));
    ("abs_change", one_layer (mean_abs_change hd));
    ("complexity", one_layer (complexity hd));
    ("central_diff", one_layer (mean_central_diff hd));
    ("num_peaks", one_layer (number_peaks hd)) ].

Definition none_not_callable : exn :=
  TypeError "'NoneType' object is not callable".

(** [stats_dict.get(str(stat))(da)]: [get] gives [None] for a name that is
    not a key, and calling [None] raises. *)
Definition call_stat (hd : Hdstats) (stat : string) (da : list (list fval))
  : result layers :=
  match lookup stat (hd_stats_dict hd) with
  | Some stat_func => stat_func da
  | None => Raise none_not_callable
  end.

Definition is_fourier (stat : string) : bool :=
  mem stat ["f_std"; "f_median"; "f_mean"].

(** [zz[:, :, 0]], [zz[:, :, 1]], [zz[:, :, 2]]. *)
Definition three_of (zz : layers)
  : result (list fval * list fval * list fval) :=
  match zz with
  | Three n1 n2 n3 => Ok (n1, n2, n3)
  | One _ => Raise IndexError
  end.

(** A two-dimensional result given to [xr.DataArray(..., dims=["y", "x"])]. *)
Definition one_of (r : layers) : result (list fval) :=
  match r with
  | One l => Ok l
  | Three _ _ _ =>
      Raise (ValueError "different number of dimensions on data and dims")
  end.

(** [xr.DataArray(l, attrs=attrs, coords={"x": x, "y": y}, dims=["y", "x"])]:
    a variable without a [time] coordinate. *)
Definition layer (l : list fval) : Stat := mkStat (Floats l) None.

(** [ds[stat + "_n1"] = ...], and the same for [n2] and [n3]. *)
Definition set_three (ds : Dataset) (stat : string) (n1 n2 n3 : list fval)
  : Dataset :=
  setitem
    (setitem (setitem ds (stat ++ "_n1")%string (layer n1))
             (stat ++ "_n2")%string (layer n2))
    (stat ++ "_n3")%string (layer n3).

(** The dataset initialised with the first statistic. *)
Definition first_stat (hd : Hdstats) (da : list (list fval)) (stat : string)
  : result Dataset :=
  if is_fourier stat then
    let* zz := call_stat hd stat da in
    let* n := three_of zz in
    let '(n1, n2, n3) := n in
    let ds := to_dataset (stat ++ "_n1")%string (layer n1) in
    Ok (setitem (setitem ds (stat ++ "_n2")%string (layer n2))
                (stat ++ "_n3")%string (layer n3))
  else
    let* r := call_stat hd stat da in
    let* l := one_of r in
    Ok (to_dataset stat (layer l)).

(** The loop [for stat in stats[1:]]. *)
Fixpoint other_stats (hd : Hdstats) (da : list (list fval)) (ds : Dataset)
    (stats : list string) : result Dataset :=
  match stats with
  | [] => Ok ds
  | stat :: rest =>
      if is_fourier stat then
        let* zz := call_stat hd stat da in
        let* n := three_of zz in
        let '(n1, n2, n3) := n in
        other_stats hd da (set_three ds stat n1 n2 n3) rest
      else
        let* r := call_stat hd stat da in
        let* l := one_of r in
        other_stats hd da (setitem ds stat (layer l)) rest
  end.

(** The loops that fill the template of the dask branch with
    [xr.zeros_like(arr)]. *)
Fixpoint template_stats (zeros : list fval) (template : Dataset)
    (stats : list string) : Dataset :=
  match stats with
  | [] => template
  | stat :: rest =>
      if is_fourier stat then
        template_stats zeros (set_three template stat zeros zeros zeros) rest
      else
        template_stats zeros (setitem template stat (layer zeros)) rest
  end.

(** What the dask branch of [temporal_statistics] returns. *)
Record DeferredStats : Type := mkDeferredStats {
  stats_template : Dataset;
  stats_da_all_time : DataArray;
  stats_kw_stats : list string
}.

Inductive StatsOutput : Type :=
| StatsComputed (ds : Dataset)
| StatsScheduled (lazy_ds : DeferredStats).

Definition no_dask_stats : exn :=
  TypeError "Dask arrays are only supported by this function if using, xarray v0.16, run da.compute() before passing dataArray.".

(** Progress messages, the attributes and the spatial coordinates and
    reference are left out. *)
Definition temporal_statistics (hd : Hdstats) (xr_version : version)
    (da : DataArray) (stats : list string) : result StatsOutput :=
  if is_dask da then
    if version_ltb xr_version (0, 16, 0)%nat then Raise no_dask_stats
    else
      let* _ := index (time da) 0 in
      let zeros := map (fun _ => Fin 0) (pixels da) in
      let* first := index stats 0 in
      let template :=
        if is_fourier first then
          template_stats zeros
            (setitem
               (setitem (to_dataset (first ++ "_n1")%string (layer zeros))
                        (first ++ "_n2")%string (layer zeros))
               (first ++ "_n3")%string (layer zeros))
            (tl stats)
        else
          template_stats zeros (to_dataset first (layer zeros)) stats in
      Ok (StatsScheduled (mkDeferredStats template da stats))
  else
    let da := pixels (zero_fill da) in
    let* first := index stats 0 in
    let* ds := first_stat hd da first in
    let* ds := other_stats hd da ds (tl stats) in
    Ok (StatsComputed ds).

(* ================================================================== *)
(** ** Inputs used below *)

(** The release of xarray from which dask input is accepted. *)
Definition xr_0_16 : version := (0, 16, 0)%nat.

(** First day of the first six months of 2021. *)
Definition months_2021 : list Z :=
  map (fun m => date 2021 m 1) [1; 2; 3; 4; 5; 6].

(** The series of the specification's example. *)
Definition spec_series : list fval :=
  [Fin (1#10); Fin (2#10); Fin (3#10); Fin (9#10); Fin (5#10); Fin (2#10)].

Definition da_spec : DataArray := mkDataArray months_2021 [spec_series] false.

(** The same pixel next to one that was never observed. *)
Definition da_unobserved : DataArray :=
  mkDataArray months_2021 [spec_series; repeat NaN 6] false.

(** The same pixel next to one that only falls. *)
Definition falling_series : list fval :=
  [Fin (9#10); Fin (5#10); Fin (4#10); Fin (3#10); Fin (2#10); Fin (1#10)].

Definition da_falling : DataArray :=
  mkDataArray months_2021 [spec_series; falling_series] false.

Definition da_chunked : DataArray :=
  mkDataArray months_2021 [spec_series; falling_series] true.

(** A season whose tail dips in June and rises again in July. *)
Definition rebound_series : list fval :=
  [Fin (1#10); Fin (4#10); Fin 1; Fin (6#10); Fin (3#10); Fin (2#10);
   Fin (5#10)].

Definition da_rebound : DataArray :=
  mkDataArray (map (fun m => date 2021 m 1) [1; 2; 3; 4; 5; 6; 7])
              [rebound_series] false.

(** A season from July 2020 to February 2021, across the new year. *)
Definition da_new_year : DataArray :=
  mkDataArray
    [date 2020 7 1; date 2020 8 1; date 2020 9 1; date 2020 10 1;
     date 2020 11 1; date 2020 12 1; date 2021 1 1; date 2021 2 1]
    [[Fin (1#10); Fin (2#10); Fin (5#10); Fin (9#10); Fin (6#10);
      Fin (4#10); Fin (3#10); Fin (2#10)]]
    false.

(** Two years sampled every 1 March and 1 September. *)
Definition da_two_years : DataArray :=
  mkDataArray
    [date 2021 3 1; date 2021 9 1; date 2022 3 1; date 2022 9 1;
     date 2023 3 1]
    [[Fin (2#10); Fin (5#10); Fin (9#10); Fin (5#10); Fin (3#10)]]
    false.

(** An hdstats whose functions return zeros, to run the module on. *)
Definition hd_zeros : Hdstats :=
  let z := fun da : list (list fval) => Ok (map (fun _ => Fin 0) da) in
  let z3 := fun da : list (list fval) =>
              Ok (map (fun _ => Fin 0) da, map (fun _ => Fin 0) da,
                  map (fun _ => Fin 0) da) in
  mkHdstats z z3 z3 z3 z z z z z z.

(* ================================================================== *)
(** ** Statements of the specification that the code does not meet *)

(** A cell that holds the missing value.  An [int16] cell holds a number
    whatever it holds. *)
Definition missing_at (c : cells) (p : nat) : Prop :=
  match c with
  | Floats l => nth_error l p = Some NaN
  | Ints _ => False
  end.

Definition all_nan_pixel (da : DataArray) (p : nat) : Prop :=
  exists s, nth_error (pixels da) p = Some s /\ forallb is_nan s = true.

(** "Every requested statistic at an all-NaN pixel is the missing value." *)
Definition unobserved_reported_missing (v : version) (da : DataArray)
    (stats : list string) (method_sos method_eos : string) : Prop :=
  forall ds p name c,
    xr_phenology v da stats method_sos method_eos = Ok (Computed ds) ->
    all_nan_pixel da p ->
    lookup name (data_vars ds) = Some c ->
    missing_at c p.

(** The wrap rule of [_los] on one pixel. *)
Definition wrapped_length (last_doy e s : Z) : Z :=
  if s <=? e then e - s else last_doy + (e - s).

(** "The season length follows the wrap rule and is never negative." *)
Definition length_wrapped_and_nonneg (v : version) (da : DataArray)
    (stats : list string) (method_sos method_eos : string) : Prop :=
  forall ds ll le ls p l e s last_doy,
    xr_phenology v da stats method_sos method_eos = Ok (Computed ds) ->
    lookup "LOS" (data_vars ds) = Some (Ints ll) ->
    lookup "EOS" (data_vars ds) = Some (Ints le) ->
    lookup "SOS" (data_vars ds) = Some (Ints ls) ->
    nth_error ll p = Some l -> nth_error le p = Some e ->
    nth_error ls p = Some s ->
    index (map dayofyear (time da)) (-1) = Ok last_doy ->
    l = wrapped_length last_doy e s /\ 0 <= l.

(** "An unsupported policy selector makes the call fail." *)
Definition invalid_method_fails (v : version) (da : DataArray)
    (stats : list string) (method_sos method_eos : string) : Prop :=
  mem method_sos ["median"; "first"] = false
  \/ mem method_eos ["median"; "last"] = false ->
  xr_phenology v da stats method_sos method_eos = Raise bad_method_sos
  \/ xr_phenology v da stats method_sos method_eos = Raise bad_method_eos.

(* ================================================================== *)
(** ** Auxiliary notions of the proofs *)

(** The day of the March-based year stays within a year. *)
Definition march_day_ok (doe : Z) : bool :=
  let d := day_of_march_year doe in
  (0 <=? d) && (d <=? 365).

(** [ok] on the [n] integers from [z] on. *)
Fixpoint holds_from (ok : Z -> bool) (n : nat) (z : Z) : bool :=
  match n with
  | O => true
  | S n' => ok z && holds_from ok n' (z + 1)
  end.

(** Every variable of the dataset is the entry of [d] of the same name. *)
Definition taken_from (d : list (string * Stat)) (ds : Dataset) : Prop :=
  forall s c, lookup s (data_vars ds) = Some c ->
              exists v, lookup s d = Some v /\ values v = c.

(** A pixel none of whose samples before the peak has a positive slope. *)
Definition no_rising_sample (ts : list Z) (s : list fval) : Prop :=
  exists i peak d,
    nanargmax s = Ok i
    /\ nth_error ts i = Some peak
    /\ differentiate ts (greening_side ts peak s) = Ok d
    /\ forall j t dj,
         nth_error ts j = Some t -> t < peak -> nth_error d j = Some dj ->
         fgtb dj (Fin 0) = false.

(** A cell that is a zero or NaN. *)
Definition zero_or_nan (x : fval) : bool :=
  match x with
  | S754_zero _ | S754_nan => true
  | _ => false
  end.

(** Rank of a cell that is not NaN, by tier (infinities outermost, zero in
    the middle), then exponent, then mantissa. *)
Definition rank (x : fval) : Z * Z * Z :=
  match x with
  | S754_zero _ => (0, 0, 0)
  | S754_infinity s => (if s then -2 else 2, 0, 0)
  | S754_nan => (0, 0, 0)
  | S754_finite s m e =>
      if s then (-1, - e, - Zpos m) else (1, e, Zpos m)
  end.

(** The lexicographic order of ranks. *)
Definition rank_lt (a b : Z * Z * Z) : Prop :=
  let '(a1, a2, a3) := a in
  let '(b1, b2, b3) := b in
  a1 < b1 \/ (a1 = b1 /\ (a2 < b2 \/ (a2 = b2 /\ a3 < b3))).

(** [i] is the first position of a greatest cell of [l]. *)
Definition first_greatest (l : list fval) (i : nat) : Prop :=
  exists x,
    nth_error l i = Some x
    /\ (forall j y, nth_error l j = Some y -> fltb x y = false)
    /\ (forall j y, (j < i)%nat -> nth_error l j = Some y -> fltb y x = true).

(** [i] is the first position of a least cell of [l]. *)
Definition first_least (l : list fval) (i : nat) : Prop :=
  exists x,
    nth_error l i = Some x
    /\ (forall j y, nth_error l j = Some y -> fltb y x = false)
    /\ (forall j y, (j < i)%nat -> nth_error l j = Some y -> fltb x y = true).

(** The value that replaces NaN before the reduction. *)
Definition substitute (da : list (list fval)) (stat : string) : fval :=
  if String.eqb stat "max" then fsub (nanmin (concat da)) (Fin 1)
  else fadd (nanmax (concat da)) (Fin 1).

Definition no_nan (l : list fval) : Prop :=
  Forall (fun x => is_nan x = false) l.

(** The first requested name that is not a statistic. *)
Definition first_unknown (stats : list string) : option string :=
  find (fun s => negb (mem s default_stats)) stats.

(** The same cell, bit for bit. *)
Definition same_cell (x y : fval) : bool :=
  match x, y with
  | S754_zero a, S754_zero b => Bool.eqb a b
  | S754_infinity a, S754_infinity b => Bool.eqb a b
  | NaN, NaN => true
  | S754_finite s m e, S754_finite s' m' e' =>
      Bool.eqb s s' && Pos.eqb m m' && Z.eqb e e'
  | _, _ => false
  end.

(** The difference of two days of the year is exact in floating point. *)
Definition days_sub_exact (a : Z) : bool :=
  holds_from
    (fun b => same_cell (fsub (of_Z a) (of_Z b)) (of_Z (a - b))) 366 1.

(** So is the sum of a day of the year and a negative difference of two. *)
Definition days_add_exact (a : Z) : bool :=
  holds_from
    (fun d => same_cell (fadd (of_Z a) (of_Z d)) (of_Z (a + d))) 365 (-365).

(** The cast of such a number gives the number back. *)
Definition days_cast_exact (z : Z) : bool :=
  float_to_int16 (of_Z z) =? z.

(** The layers that a requested statistic adds to the result. *)
Definition layer_names (stat : string) : list string :=
  if is_fourier stat then
    [(stat ++ "_n1")%string; (stat ++ "_n2")%string; (stat ++ "_n3")%string]
  else [stat].

(** The names of a dataset after [ds[k] = ...]. *)
Fixpoint add_name (k : string) (ns : list string) : list string :=
  match ns with
  | [] => [k]
  | k' :: ns' => if String.eqb k k' then k :: ns' else k' :: add_name k ns'
  end.

(** Every function of the library returns. *)
Definition hd_returns (hd : Hdstats) : Prop :=
  forall da,
    (exists l, discordance hd da = Ok l)
    /\ (exists l, fourier_std hd da = Ok l)
    /\ (exists l, fourier_mean hd da = Ok l)
    /\ (exists l, fourier_median hd da = Ok l)
    /\ (exists l, mean_change hd da = Ok l)
    /\ (exists l, median_change hd da = Ok l)
    /\ (exists l, mean_abs_change hd da = Ok l)
    /\ (exists l, complexity hd da = Ok l)
    /\ (exists l, mean_central_diff hd da = Ok l)
    /\ (exists l, number_peaks hd da = Ok l).

(** The keys of [stats_dict] of [temporal_statistics]. *)
Definition hd_names : list string :=
  ["discordance"; "f_std"; "f_mean"; "f_median"; "mean_change";
   "median_change"; "abs_change"; "complexity"; "central_diff"; "num_peaks"].

(** The first requested name that is not a key of [stats_dict]. *)
Definition first_unknown_stat (stats : list string) : option string :=
  find (fun s => negb (mem s hd_names)) stats.

(* ================================================================== *)
(** * Properties *)

(** ** The error monad *)

Lemma bind_Ok {A B} (r : result A) (k : A -> result B) (b : B) :
  bind r k = Ok b -> exists a, r = Ok a /\ k a = Ok b.
Proof.
  destruct r as [a | e]; simpl; intros H; [eauto | discriminate].
Qed.

(** Splits every hypothesis [let* x := r in k = Ok b] into [r = Ok x] and
    [k x = Ok b]. *)
Ltac inv_bind :=
  repeat match goal with
  | H : bind _ _ = Ok _ |- _ =>
      let a := fresh "a" in
      let Ha := fresh "Ha" in
      apply bind_Ok in H; destruct H as (a & Ha & H)
  | H : Ok _ = Ok _ |- _ => injection H as H
  | H : Raise _ = Ok _ |- _ => discriminate H
  end.

Lemma mapM_length {A B} (f : A -> result B) l r :
  mapM f l = Ok r -> length r = length l.
Proof.
  revert r; induction l as [| a l IH]; simpl; intros r H.
  - injection H as <-; reflexivity.
  - inv_bind. subst r. simpl. f_equal. eauto.
Qed.

Lemma mapM_nth {A B} (f : A -> result B) l r p a :
  mapM f l = Ok r -> nth_error l p = Some a ->
  exists b, f a = Ok b /\ nth_error r p = Some b.
Proof.
  revert r p; induction l as [| x l IH]; intros r p H Hp.
  - destruct p; discriminate.
  - simpl in H. inv_bind. subst r.
    destruct p as [| p]; simpl in *.
    + injection Hp as ->. eauto.
    + eauto.
Qed.

Lemma mapM_Ok {A B} (f : A -> result B) l :
  (forall a, In a l -> exists b, f a = Ok b) -> exists r, mapM f l = Ok r.
Proof.
  induction l as [| a l IH]; simpl; intros H; [eauto |].
  destruct (H a) as [b Hb]; [auto |]. rewrite Hb. simpl.
  destruct IH as [r Hr]; [auto |]. rewrite Hr. simpl. eauto.
Qed.

(** ** Lists *)

Lemma map2_nth {A B C} (f : A -> B -> C) l m p a b :
  nth_error l p = Some a -> nth_error m p = Some b ->
  nth_error (map2 f l m) p = Some (f a b).
Proof.
  revert m p; induction l as [| x l IH]; intros [| y m] [| p]; simpl;
    try discriminate; intros Ha Hb.
  - congruence.
  - auto.
Qed.

Lemma map2_nth_inv {A B C} (f : A -> B -> C) l m p c :
  nth_error (map2 f l m) p = Some c ->
  exists a b, nth_error l p = Some a /\ nth_error m p = Some b /\ c = f a b.
Proof.
  revert m p; induction l as [| x l IH]; intros [| y m] [| p]; simpl;
    try discriminate; intros H.
  - injection H as <-. eauto.
  - eauto.
Qed.

Lemma map2_length {A B C} (f : A -> B -> C) l m :
  length (map2 f l m) = Nat.min (length l) (length m).
Proof.
  revert m; induction l as [| x l IH]; intros [| y m]; simpl; auto.
Qed.

Lemma combine_nth_error {A B} (l : list A) (m : list B) p a b :
  nth_error l p = Some a -> nth_error m p = Some b ->
  nth_error (combine l m) p = Some (a, b).
Proof.
  revert m p; induction l as [| x l IH]; intros [| y m] [| p]; simpl;
    try discriminate; intros Ha Hb.
  - congruence.
  - auto.
Qed.

Lemma index_0 {A} (l : list A) a :
  index l 0 = Ok a -> exists l', l = a :: l'.
Proof.
  unfold index. destruct l as [| x l]; simpl; [discriminate |].
  intros H. injection H as ->. eauto.
Qed.

Lemma index_of_nat {A} (l : list A) (i : nat) a :
  index l (Z.of_nat i) = Ok a -> nth_error l i = Some a.
Proof.
  unfold index.
  destruct (Z.ltb_spec (Z.of_nat i) 0); [lia |].
  destruct ((0 <=? Z.of_nat i) && (Z.of_nat i <? Z.of_nat (length l)));
    [| discriminate].
  rewrite Nat2Z.id. destruct (nth_error l i); congruence.
Qed.

(** ** Day of year *)

Lemma holds_from_spec ok n z k :
  holds_from ok n z = true -> z <= k < z + Z.of_nat n -> ok k = true.
Proof.
  revert z; induction n as [| n IH]; intros z H Hk; [lia |].
  simpl in H. apply andb_true_iff in H. destruct H as [H0 H1].
  destruct (Z.eq_dec k z) as [-> | Hne]; [assumption |].
  apply (IH (z + 1)); [assumption | lia].
Qed.

Lemma march_days_checked :
  holds_from march_day_ok (Z.to_nat 146097) 0 = true.
Proof. vm_compute. reflexivity. Qed.

Lemma day_of_march_year_range doe :
  0 <= doe < 146097 -> 0 <= day_of_march_year doe <= 365.
Proof.
  intros H.
  assert (march_day_ok doe = true) as C.
  { apply (holds_from_spec _ _ _ _ march_days_checked).
    rewrite Z2Nat.id; lia. }
  unfold march_day_ok in C. apply andb_true_iff in C. lia.
Qed.

Lemma dayofyear_range t : 1 <= dayofyear t <= 366.
Proof.
  unfold dayofyear, dayofyear_of_days.
  set (z := days_of_ns t + 719468).
  pose proof (Z.mod_pos_bound z 146097 ltac:(lia)) as Hm.
  pose proof (day_of_march_year_range _ Hm) as Hd.
  destruct (Z.leb_spec 306 (day_of_march_year (z mod 146097)));
    [lia |].
  match goal with |- context [is_leap ?y] => destruct (is_leap y) end; lia.
Qed.

Lemma to_int16_small z : -32768 <= z < 32768 -> to_int16 z = z.
Proof.
  intros H. unfold to_int16.
  rewrite Z.mod_small by lia. lia.
Qed.

Lemma to_int16_dayofyear t : to_int16 (dayofyear t) = dayofyear t.
Proof.
  pose proof (dayofyear_range t). apply to_int16_small. lia.
Qed.

(** ** Execution environment and policy selectors *)

(** C9: a chunked input under an xarray older than 0.16.0 makes the call
    raise the [TypeError] that asks for [da.compute()]; nothing is
    scheduled and nothing is computed. *)
Theorem dask_on_old_xarray_raises v da stats method_sos method_eos :
  is_dask da = true ->
  version_ltb v (0, 16, 0)%nat = true ->
  xr_phenology v da stats method_sos method_eos = Raise no_dask.
Proof.
  intros Hd Hv. unfold xr_phenology. rewrite Hd, Hv. reflexivity.
Qed.

Lemma dask_on_old_xarray_raises_witness :
  xr_phenology (0, 15, 1)%nat da_chunked default_stats "first" "last"
  = Raise no_dask.
Proof.
  apply dask_on_old_xarray_raises; reflexivity.
Defined.

(** C6, as stated, fails on a chunked input: with [method_sos = "bogus"]
    the call returns the scheduled collection and raises nothing. *)
Lemma chunked_invalid_method_is_scheduled :
  (exists d, xr_phenology xr_0_16 da_chunked default_stats "bogus" "last"
             = Ok (Scheduled d))
  /\ ~ invalid_method_fails xr_0_16 da_chunked default_stats "bogus" "last".
Proof.
  split.
  - eexists. vm_compute. reflexivity.
  - intros H. destruct H as [H | H].
    + left. reflexivity.
    + vm_compute in H. discriminate H.
    + vm_compute in H. discriminate H.
Qed.

(** C6, amended: on an in-memory input an unsupported [method_sos] or
    [method_eos] makes the call raise its [ValueError], whatever the data
    and the requested statistics are; no collection is returned. *)
Theorem invalid_method_raises_in_memory v da stats method_sos method_eos :
  is_dask da = false ->
  mem method_sos ["median"; "first"] = false
  \/ mem method_eos ["median"; "last"] = false ->
  xr_phenology v da stats method_sos method_eos = Raise bad_method_sos
  \/ xr_phenology v da stats method_sos method_eos = Raise bad_method_eos.
Proof.
  intros Hd H. unfold xr_phenology. rewrite Hd.
  destruct (mem method_sos ["median"; "first"]) eqn:Es; cbn [negb].
  - destruct H as [H | H]; [discriminate |]. rewrite H. now right.
  - now left.
Qed.

Lemma invalid_method_raises_in_memory_witness :
  xr_phenology xr_0_16 da_spec default_stats "first" "latest"
  = Raise bad_method_sos
  \/ xr_phenology xr_0_16 da_spec default_stats "first" "latest"
     = Raise bad_method_eos.
Proof.
  apply invalid_method_raises_in_memory; [reflexivity | right; reflexivity].
Defined.

(** ** Rates *)

Lemma fdiv_by_zero_not_finite n z : is_finite (fdiv n (of_Z (z - z))) = false.
Proof.
  rewrite Z.sub_diag. destruct n as [s | s | | s m e]; reflexivity.
Qed.

(** C10: on the two-year series the start, the peak and the end of the
    season all fall on day 60, in three different years.  [_rog] and [_ros]
    divide by [60 - 60]; the call raises nothing and returns plus infinity
    for ROG and minus infinity for ROS.  Whatever the dividend, the
    quotient by [z - z] is not a finite number. *)
Theorem rates_divide_by_zero :
  exists ds,
    xr_phenology xr_0_16 da_two_years default_stats "first" "last"
    = Ok (Computed ds)
    /\ lookup "SOS" (data_vars ds) = Some (Ints [60])
    /\ lookup "POS" (data_vars ds) = Some (Ints [60])
    /\ lookup "EOS" (data_vars ds) = Some (Ints [60])
    /\ lookup "ROG" (data_vars ds)
       = Some (Floats [fdiv (fsub (Fin (9#10)) (Fin (2#10))) (of_Z (60 - 60))])
    /\ lookup "ROS" (data_vars ds)
       = Some (Floats [fdiv (fsub (Fin (3#10)) (Fin (9#10))) (of_Z (60 - 60))])
    /\ fdiv (fsub (Fin (9#10)) (Fin (2#10))) (of_Z (60 - 60)) = PInf
    /\ fdiv (fsub (Fin (3#10)) (Fin (9#10))) (of_Z (60 - 60)) = NInf
    /\ (forall n z, is_finite (fdiv n (of_Z (z - z))) = false).
Proof.
  eexists. split; [vm_compute; reflexivity |].
  do 7 (split; [vm_compute; reflexivity |]).
  exact fdiv_by_zero_not_finite.
Qed.

(** ** The example of the specification *)

(** C8: the landmarks of the example are as the specification gives them:
    peak 0.9 on 1 April, the fourth timestamp and day 91, trough 0.1,
    amplitude 0.8 (held in lowest terms, 4/5).  The request ["vPOS"; "Trough"; "AOS"] itself raises:
    none of the three carries a [time] coordinate, so the final
    [ds.drop("time")] finds nothing to drop. *)
Theorem spec_example_request_raises :
  xr_phenology xr_0_16 da_spec ["vPOS"; "Trough"; "AOS"] "first" "last"
  = Raise (ValueError
      "One or more of the specified variables cannot be found in this dataset")
  /\ (exists ds,
        xr_phenology xr_0_16 da_spec ["vPOS"; "Trough"; "AOS"; "POS"]
                     "first" "last" = Ok (Computed ds)
        /\ data_vars ds
           = [ ("vPOS", Floats [Fin (9#10)]); ("Trough", Floats [Fin (1#10)]);
               ("AOS", Floats [Fin (4#5)]); ("POS", Ints [91]) ])
  /\ map dayofyear months_2021 = [1; 32; 60; 91; 121; 152]
  /\ nth_error spec_series 3 = Some (Fin (9#10)).
Proof.
  split; [vm_compute; reflexivity |].
  split; [eexists; split; vm_compute; reflexivity |].
  split; vm_compute; reflexivity.
Qed.

(** ** End of season *)

(** C3: on the rebound series the peak is on 1 March.  With
    [method_eos = "last"], [_veos] returns the value 0.2 of 1 June, where
    the slope of the senescing side is positive; the only later sample
    with a negative slope is the 0.3 of 1 May.  The pipeline reports that
    vEOS with EOS 152, the day of the year of 1 June. *)
Theorem veos_selects_rising_sample :
  exists pos veos d,
    _pos da_rebound = Ok pos
    /\ tcoord pos = Some [date 2021 3 1]
    /\ _veos da_rebound pos "last" = Ok veos
    /\ data veos = [Fin (2#10)]
    /\ tcoord veos = Some [date 2021 6 1]
    /\ nth_error (time da_rebound) 5 = Some (date 2021 6 1)
    /\ differentiate (time da_rebound)
         (senescing_side (time da_rebound) (date 2021 3 1) rebound_series)
       = Ok d
    /\ map (fun x => fltb x (Fin 0)) d
       = [false; false; false; false; true; false; false]
    /\ fltb (Fin 0) (nth 5 d NaN) = true
    /\ xr_phenology xr_0_16 da_rebound ["vEOS"; "EOS"] "first" "last"
       = Ok (Computed
               (mkDataset [("vEOS", Floats [Fin (2#10)]); ("EOS", Ints [152])]
                          None)).
Proof.
  do 3 eexists.
  split; [vm_compute; reflexivity |].
  split; [vm_compute; reflexivity |].
  split; [vm_compute; reflexivity |].
  split; [vm_compute; reflexivity |].
  split; [vm_compute; reflexivity |].
  split; [vm_compute; reflexivity |].
  split; [vm_compute; reflexivity |].
  split; [vm_compute; reflexivity |].
  split; vm_compute; reflexivity.
Qed.

(** ** Assembling the requested statistics *)

Lemma lookup_upsert_same {A} k (v : A) d : lookup k (upsert k v d) = Some v.
Proof.
  induction d as [| [k' v'] d IH]; simpl.
  - now rewrite String.eqb_refl.
  - destruct (String.eqb k k') eqn:E; simpl.
    + now rewrite String.eqb_refl.
    + now rewrite E.
Qed.

Lemma lookup_upsert_other {A} k k' (v : A) d :
  k <> k' -> lookup k (upsert k' v d) = lookup k d.
Proof.
  intros Hne. induction d as [| [k2 v2] d IH]; simpl.
  - destruct (String.eqb_spec k k'); [contradiction | reflexivity].
  - destruct (String.eqb_spec k' k2) as [-> | Hn2]; simpl.
    + destruct (String.eqb_spec k k2); [contradiction | reflexivity].
    + destruct (String.eqb_spec k k2); [reflexivity | assumption].
Qed.

Lemma upsert_keys {A} k k' (v : A) d :
  In k (map fst (upsert k' v d)) <-> k = k' \/ In k (map fst d).
Proof.
  induction d as [| [k2 v2] d IH]; simpl.
  - intuition.
  - destruct (String.eqb_spec k' k2) as [-> | Hn2]; simpl; intuition.
Qed.

Lemma lookup_keys {A} k (d : list (string * A)) :
  In k (map fst d) <-> exists v, lookup k d = Some v.
Proof.
  induction d as [| [k2 v2] d IH]; simpl.
  - split; [contradiction | intros [v H]; discriminate].
  - destruct (String.eqb_spec k k2) as [-> | Hne].
    + split; eauto.
    + rewrite <- IH. intuition congruence.
Qed.

Lemma getitem_Ok {A} (d : list (string * A)) k v :
  getitem d k = Ok v -> lookup k d = Some v.
Proof.
  unfold getitem. destruct (lookup k d); intros H; inv_bind; congruence.
Qed.

Lemma setitem_taken_from d ds k v :
  taken_from d ds -> lookup k d = Some v -> taken_from d (setitem ds k v).
Proof.
  intros Hds Hk s c. unfold setitem; simpl.
  destruct (String.eqb_spec s k) as [-> | Hne].
  - rewrite lookup_upsert_same. intros [= <-]. eauto.
  - rewrite lookup_upsert_other by assumption. apply Hds.
Qed.

Lemma add_stats_spec d stats : forall ds0 ds,
  add_stats d ds0 stats = Ok ds ->
  taken_from d ds0 ->
  taken_from d ds
  /\ (forall s, In s (names ds) <-> In s (names ds0) \/ In s stats)
  /\ (forall s, In s stats -> exists v, lookup s d = Some v)
  /\ (ds_time ds0 <> None -> ds_time ds <> None)
  /\ (forall s v, In s stats -> lookup s d = Some v -> vtime v <> None ->
      ds_time ds <> None).
Proof.
  induction stats as [| k stats IH]; simpl; intros ds0 ds H H0.
  - injection H as <-. repeat split; try tauto.
  - inv_bind. apply getitem_Ok in Ha.
    destruct (IH _ _ H (setitem_taken_from _ _ _ _ H0 Ha))
      as (T & N & K & P & Q).
    assert (forall t, ds_time ds0 = Some t -> ds_time ds <> None) as P0.
    { intros t Ht. apply P. simpl. now rewrite Ht. }
    repeat split.
    + exact T.
    + intros Hs. apply N in Hs. unfold names in Hs; simpl in Hs.
      destruct Hs as [Hs | Hs]; [| simpl; auto].
      apply upsert_keys in Hs. unfold names. simpl.
      destruct Hs as [-> | Hs]; auto.
    + intros Hs. apply N. unfold names; simpl. rewrite upsert_keys.
      unfold names in Hs. simpl in Hs.
      destruct Hs as [Hs | [<- | Hs]]; auto.
    + intros s [<- | Hs]; eauto.
    + intros Hne. destruct (ds_time ds0) eqn:E; [eauto | contradiction].
    + intros s v [<- | Hs] Hv Hne; [| eauto].
      apply P. simpl. destruct (ds_time ds0); [discriminate |]. congruence.
Qed.

Lemma add_stats_Ok d stats : forall ds0,
  (forall s, In s stats -> exists v, lookup s d = Some v) ->
  exists ds, add_stats d ds0 stats = Ok ds.
Proof.
  induction stats as [| k stats IH]; simpl; intros ds0 H; [eauto |].
  destruct (H k) as [v Hv]; [auto |]. unfold getitem. rewrite Hv. simpl.
  apply IH. auto.
Qed.

Lemma index_head {A} (a : A) l : index (a :: l) 0 = Ok a.
Proof.
  unfold index. simpl Z.ltb. cbv iota.
  destruct (Z.ltb_spec 0 (Z.of_nat (length (a :: l)))) as [_ | H].
  - reflexivity.
  - simpl length in H. lia.
Qed.

Lemma index_nil_0 {A} : index (@nil A) 0 = Raise IndexError.
Proof. reflexivity. Qed.

Lemma assemble_spec d stats ds :
  assemble d stats = Ok ds ->
  taken_from d ds
  /\ (forall s, In s (names ds) <-> In s stats)
  /\ (forall s, In s stats -> exists v, lookup s d = Some v)
  /\ ds_time ds = None.
Proof.
  unfold assemble. intros H.
  destruct stats as [| k stats]; [discriminate |].
  rewrite index_head in H. simpl in H. inv_bind.
  apply getitem_Ok in Ha.
  assert (taken_from d (to_dataset k a)) as T0.
  { intros s c. unfold to_dataset; simpl.
    destruct (String.eqb_spec s k) as [-> | Hne]; [| discriminate].
    intros [= <-]. eauto. }
  destruct (add_stats_spec _ _ _ _ Ha0 T0) as (T & N & K & _ & _).
  unfold drop_time in H. destruct (ds_time a0) eqn:E; [| discriminate].
  injection H as <-. unfold names in *; simpl in *.
  repeat split.
  - exact T.
  - intros Hs. apply N in Hs. tauto.
  - intros Hs. apply N. tauto.
  - intros s [<- | Hs]; eauto.
Qed.

Lemma assemble_Ok d stats :
  stats <> [] ->
  (forall s, In s stats -> exists v, lookup s d = Some v) ->
  (exists s v, In s stats /\ lookup s d = Some v /\ vtime v <> None) ->
  exists ds, assemble d stats = Ok ds.
Proof.
  intros Hne Hk (s & v & Hs & Hv & Ht).
  destruct stats as [| k stats]; [contradiction |].
  unfold assemble. rewrite index_head. simpl.
  destruct (Hk k) as [vk Hvk]; [simpl; auto |].
  unfold getitem at 1. rewrite Hvk. simpl.
  destruct (add_stats_Ok d stats (to_dataset k vk)) as [ds Hds].
  { intros; apply Hk; simpl; auto. }
  rewrite Hds. simpl.
  assert (taken_from d (to_dataset k vk)) as T0.
  { intros s' c. unfold to_dataset; simpl.
    destruct (String.eqb_spec s' k) as [-> | Hn]; [| discriminate].
    intros [= <-]. eauto. }
  destruct (add_stats_spec _ _ _ _ Hds T0) as (_ & _ & _ & P & Q).
  assert (ds_time ds <> None) as Hne'.
  { destruct Hs as [<- | Hs].
    - apply P. simpl. congruence.
    - eapply Q; eauto. }
  unfold drop_time. destruct (ds_time ds); [eauto | contradiction].
Qed.

(** ** What a returned collection was computed from *)

Lemma xr_phenology_Computed v da stats method_sos method_eos ds :
  xr_phenology v da stats method_sos method_eos = Ok (Computed ds) ->
  is_dask da = false
  /\ mem method_sos ["median"; "first"] = true
  /\ mem method_eos ["median"; "last"] = true
  /\ exists d, stats_dict (zero_fill da) method_sos method_eos = Ok d
               /\ assemble d stats = Ok ds.
Proof.
  unfold xr_phenology. intros H.
  destruct (is_dask da).
  - destruct (version_ltb v (0, 16, 0)%nat); [discriminate |].
    inv_bind. discriminate.
  - destruct (mem method_sos ["median"; "first"]); [| discriminate].
    destruct (mem method_eos ["median"; "last"]); [| discriminate].
    cbn [negb] in H. inv_bind. subst. eauto 6.
Qed.

Lemma xr_phenology_in_memory v da stats method_sos method_eos d :
  is_dask da = false ->
  mem method_sos ["median"; "first"] = true ->
  mem method_eos ["median"; "last"] = true ->
  stats_dict (zero_fill da) method_sos method_eos = Ok d ->
  xr_phenology v da stats method_sos method_eos
  = let* ds := assemble d stats in Ok (Computed ds).
Proof.
  intros Hd Hs He Hdict. unfold xr_phenology.
  rewrite Hd, Hs, He. cbn [negb]. rewrite Hdict. reflexivity.
Qed.

Lemma stats_dict_inv da method_sos method_eos d :
  stats_dict da method_sos method_eos = Ok d ->
  exists vpos pos trough vsos sos veos eos los,
    _vpos da = Ok vpos /\ _pos da = Ok pos /\ _trough da = Ok trough
    /\ _vsos da pos method_sos = Ok vsos /\ _sos vsos = Ok sos
    /\ _veos da pos method_eos = Ok veos /\ _eos veos = Ok eos
    /\ _los da eos sos = Ok los
    /\ d = [ ("SOS", astype_int16_of_int sos);
             ("EOS", astype_int16_of_int eos);
             ("vSOS", astype_float32 vsos);
             ("vPOS", astype_float32 vpos);
             ("Trough", astype_float32 trough);
             ("POS", astype_int16_of_int pos);
             ("vEOS", astype_float32 veos);
             ("LOS", astype_int16_of_float los);
             ("AOS", astype_float32 (_aos vpos trough));
             ("ROG", astype_float32 (_rog vpos vsos pos sos));
             ("ROS", astype_float32 (_ros veos vpos eos pos)) ].
Proof.
  unfold stats_dict. intros H. inv_bind. subst d.
  do 8 eexists. repeat (split; [eassumption |]). reflexivity.
Qed.

(** Take an in-memory run that returns for the request [B], and a request
    [A] whose names all occur in [B].  The eleven statistics were all
    computed, whatever was requested.  Every run for [A] that returns
    holds, for each name of [A], the cells that the run for [B] holds, and
    holds the names of [A] and no others.  The run for [A] does return as
    soon as [A] is not empty and names a statistic that carries a [time]
    coordinate. *)
Lemma subset_request_same_values v da A B method_sos method_eos dsB :
  incl A B ->
  xr_phenology v da B method_sos method_eos = Ok (Computed dsB) ->
  exists d,
    stats_dict (zero_fill da) method_sos method_eos = Ok d
    /\ map fst d = ["SOS"; "EOS"; "vSOS"; "vPOS"; "Trough"; "POS"; "vEOS";
                    "LOS"; "AOS"; "ROG"; "ROS"]
    /\ (forall dsA,
          xr_phenology v da A method_sos method_eos = Ok (Computed dsA) ->
          (forall s, In s A ->
             exists c, lookup s (data_vars dsA) = Some c
                       /\ lookup s (data_vars dsB) = Some c)
          /\ (forall s, In s (names dsA) <-> In s A))
    /\ (A <> [] ->
        (exists s x, In s A /\ lookup s d = Some x /\ vtime x <> None) ->
        exists dsA,
          xr_phenology v da A method_sos method_eos = Ok (Computed dsA)).
Proof.
  intros Hincl HB.
  destruct (xr_phenology_Computed _ _ _ _ _ _ HB)
    as (Hd & Hs & He & d & Hdict & HasB).
  exists d. split; [exact Hdict |].
  split.
  { destruct (stats_dict_inv _ _ _ _ Hdict)
      as (? & ? & ? & ? & ? & ? & ? & ? & _ & _ & _ & _ & _ & _ & _ & _ & ->).
    reflexivity. }
  destruct (assemble_spec _ _ _ HasB) as (TB & NB & KB & _).
  split.
  - intros dsA HA.
    rewrite (xr_phenology_in_memory _ _ _ _ _ _ Hd Hs He Hdict) in HA.
    inv_bind. subst.
    destruct (assemble_spec _ _ _ Ha) as (TA & NA & KA & _).
    split; [| exact NA].
    intros s Hs'.
    assert (In s (names dsA)) as H1 by (apply NA; exact Hs').
    assert (In s (names dsB)) as H2 by (apply NB, Hincl; exact Hs').
    apply lookup_keys in H1. apply lookup_keys in H2.
    destruct H1 as [c1 H1]. destruct H2 as [c2 H2].
    destruct (TA _ _ H1) as (v1 & L1 & E1).
    destruct (TB _ _ H2) as (v2 & L2 & E2).
    exists c1. split; [exact H1 |]. rewrite H2. congruence.
  - intros Hne Ht.
    destruct (assemble_Ok d A Hne) as [dsA HdsA].
    + intros s Hs'. apply KB, Hincl, Hs'.
    + exact Ht.
    + exists dsA.
      rewrite (xr_phenology_in_memory _ _ _ _ _ _ Hd Hs He Hdict).
      rewrite HdsA. reflexivity.
Qed.

Lemma subset_request_same_values_witness :
  exists d,
    stats_dict (zero_fill da_spec) "first" "last" = Ok d
    /\ map fst d = ["SOS"; "EOS"; "vSOS"; "vPOS"; "Trough"; "POS"; "vEOS";
                    "LOS"; "AOS"; "ROG"; "ROS"]
    /\ (forall dsA,
          xr_phenology xr_0_16 da_spec ["AOS"; "POS"] "first" "last"
          = Ok (Computed dsA) ->
          (forall s, In s ["AOS"; "POS"] ->
             exists c, lookup s (data_vars dsA) = Some c
                       /\ lookup s
                            (data_vars
                               (mkDataset
                                  [("POS", Ints [91]);
                                   ("vPOS", Floats [Fin (9#10)]);
                                   ("AOS", Floats [Fin (4#5)])] None))
                          = Some c)
          /\ (forall s, In s (names dsA) <-> In s ["AOS"; "POS"]))
    /\ (["AOS"; "POS"] <> [] ->
        (exists s x, In s ["AOS"; "POS"] /\ lookup s d = Some x
                     /\ vtime x <> None) ->
        exists dsA,
          xr_phenology xr_0_16 da_spec ["AOS"; "POS"] "first" "last"
          = Ok (Computed dsA)).
Proof.
  apply (subset_request_same_values xr_0_16 da_spec ["AOS"; "POS"]
           ["POS"; "vPOS"; "AOS"] "first" "last").
  - intros s [<- | [<- | []]]; simpl; auto.
  - vm_compute. reflexivity.
Defined.

(** C7: the request ["vPOS"; "Trough"; "AOS"] is part of the request
    ["vPOS"; "Trough"; "AOS"; "POS"].  On [da_falling] the run for the
    larger request returns, and the run for the smaller one raises in the
    final [ds.drop("time")], since none of its three statistics carries a
    [time] coordinate: it holds no values to compare. *)
Theorem subset_request_raises :
  incl ["vPOS"; "Trough"; "AOS"] ["vPOS"; "Trough"; "AOS"; "POS"]
  /\ xr_phenology xr_0_16 da_falling ["vPOS"; "Trough"; "AOS"]
                  "first" "last"
     = Raise (ValueError
         "One or more of the specified variables cannot be found in this dataset")
  /\ xr_phenology xr_0_16 da_falling ["vPOS"; "Trough"; "AOS"; "POS"]
                  "first" "last"
     = Ok (Computed
             (mkDataset
                [ ("vPOS", Floats [Fin (9#10); Fin (9#10)]);
                  ("Trough", Floats [Fin (1#10); Fin (1#10)]);
                  ("AOS", Floats [Fin (4#5); Fin (4#5)]);
                  ("POS", Ints [91; 1]) ] None)).
Proof.
  split.
  - intros s Hs. simpl in *. tauto.
  - split; vm_compute; reflexivity.
Qed.

(** ** Season length *)

Lemma nth_error_map_Some {A B} (f : A -> B) l p b :
  nth_error (map f l) p = Some b ->
  exists a, nth_error l p = Some a /\ b = f a.
Proof.
  rewrite nth_error_map. destruct (nth_error l p); simpl; intros H;
    [injection H as <-; eauto | discriminate].
Qed.

Lemma index_In {A} (l : list A) i a : index l i = Ok a -> In a l.
Proof.
  unfold index.
  destruct ((0 <=? _) && _); [| discriminate].
  destruct (nth_error l _) eqn:E; [| discriminate].
  intros [= <-]. eapply nth_error_In; eassumption.
Qed.

(** C4: on the season that crosses the new year the start is on day 183,
    the end on day 32 and the last timestamp on day 32.  [_los] finds
    [32 - 183] negative and adds the day of the year of the last
    timestamp: the reported length is 32 + (32 - 183) = -119, which is
    negative. *)
Lemma new_year_length_negative :
  (exists ds,
     xr_phenology xr_0_16 da_new_year ["SOS"; "EOS"; "LOS"] "first" "last"
     = Ok (Computed ds)
     /\ data_vars ds
        = [("SOS", Ints [183]); ("EOS", Ints [32]); ("LOS", Ints [-119])])
  /\ ~ length_wrapped_and_nonneg xr_0_16 da_new_year ["SOS"; "EOS"; "LOS"]
         "first" "last".
Proof.
  split.
  - eexists. split; vm_compute; reflexivity.
  - intros H.
    destruct (H (mkDataset
                   [("SOS", Ints [183]); ("EOS", Ints [32]);
                    ("LOS", Ints [-119])] None)
                [-119] [32] [183] 0%nat (-119) 32 183 32) as [_ Hneg];
      try (vm_compute; reflexivity).
    lia.
Qed.

(** ** Pixels that were never observed *)

Lemma zero_fill_all_nan da p s :
  nth_error (pixels da) p = Some s -> forallb is_nan s = true ->
  nth_error (pixels (zero_fill da)) p = Some (map (fun _ => Fin 0) s).
Proof.
  intros Hp Hs. unfold zero_fill; simpl.
  erewrite map2_nth; [| rewrite nth_error_map, Hp; reflexivity | exact Hp].
  simpl. now rewrite Hs.
Qed.

Lemma zero_fill_observed da p s :
  nth_error (pixels da) p = Some s -> forallb is_nan s = false ->
  nth_error (pixels (zero_fill da)) p = Some s.
Proof.
  intros Hp Hs. unfold zero_fill; simpl.
  erewrite map2_nth; [| rewrite nth_error_map, Hp; reflexivity | exact Hp].
  simpl. now rewrite Hs.
Qed.

Lemma fold_max_zeros {A} (s : list A) :
  fold_left max_step (map (fun _ => Fin 0) s) (Fin 0) = Fin 0.
Proof. induction s; simpl; auto. Qed.

Lemma fold_min_zeros {A} (s : list A) :
  fold_left min_step (map (fun _ => Fin 0) s) (Fin 0) = Fin 0.
Proof. induction s; simpl; auto. Qed.

Lemma nanmax_zeros {A} (s : list A) :
  s <> [] -> nanmax (map (fun _ => Fin 0) s) = Fin 0.
Proof.
  destruct s; [contradiction |]. intros _. apply (fold_max_zeros s).
Qed.

Lemma nanmin_zeros {A} (s : list A) :
  s <> [] -> nanmin (map (fun _ => Fin 0) s) = Fin 0.
Proof.
  destruct s; [contradiction |]. intros _. apply (fold_min_zeros s).
Qed.

Lemma argmax_scan_zeros {A} (s : list A) b i :
  argmax_scan (Fin 0) b i (map (fillna NInf) (map (fun _ => Fin 0) s)) = b.
Proof. revert i; induction s; simpl; auto. Qed.

Lemma nanargmax_zeros {A} (s : list A) :
  s <> [] -> nanargmax (map (fun _ => Fin 0) s) = Ok 0%nat.
Proof.
  destruct s; [contradiction |]. intros _.
  unfold nanargmax. simpl. f_equal. apply argmax_scan_zeros.
Qed.

(** C1, as stated, fails next to an observed pixel: the pixel that is all
    NaN comes out with the numbers 0 for vPOS, Trough, AOS, vEOS and ROS and
    with days of the year for SOS, POS and EOS. *)
Lemma unobserved_pixel_reported_zero :
  (exists ds,
     xr_phenology xr_0_16 da_unobserved default_stats "first" "last"
     = Ok (Computed ds)
     /\ data_vars ds
        = [ ("SOS", Ints [1; 1]); ("POS", Ints [91; 1]);
            ("EOS", Ints [152; 32]);
            ("Trough", Floats [Fin (1#10); Fin 0]);
            ("vSOS", Floats [Fin (1#10); NaN]);
            ("vPOS", Floats [Fin (9#10); Fin 0]);
            ("vEOS", Floats [Fin (2#10); Fin 0]);
            ("LOS", Ints [151; 31]);
            ("AOS", Floats [Fin (4#5); Fin 0]);
            ("ROG", Floats [Fin (2#225); NaN]);
            ("ROS", Floats [Fin (-7#610); Fin 0]) ])
  /\ all_nan_pixel da_unobserved 1
  /\ ~ unobserved_reported_missing xr_0_16 da_unobserved default_stats
         "first" "last".
Proof.
  assert (all_nan_pixel da_unobserved 1) as Hp.
  { eexists. split; reflexivity. }
  split; [eexists; split; vm_compute; reflexivity |].
  split; [exact Hp |].
  intros H.
  refine (_ (H _ 1%nat "vPOS" (Floats [Fin (9#10); Fin 0]) _ Hp _));
    [| vm_compute; reflexivity | vm_compute; reflexivity].
  simpl. discriminate.
Qed.

(** ** Pixels without a rising sample *)

Lemma Ok_inj {A} (a b : A) : Ok a = Ok b -> a = b.
Proof. congruence. Qed.

Lemma all_nan_forall l :
  forallb is_nan l = true <-> forall x, In x l -> x = NaN.
Proof.
  rewrite forallb_forall. split; intros H x Hx.
  - specialize (H x Hx). destruct x; try discriminate H. reflexivity.
  - now rewrite (H x Hx).
Qed.

Lemma pos_greenup_all_nan ts peak s d g :
  differentiate ts (greening_side ts peak s) = Ok d ->
  (forall j t dj,
     nth_error ts j = Some t -> t < peak -> nth_error d j = Some dj ->
     fgtb dj (Fin 0) = false) ->
  pos_greenup ts peak s = Ok g ->
  forallb is_nan g = true.
Proof.
  intros Hd Hno Hg. unfold pos_greenup in Hg. rewrite Hd in Hg.
  cbn [bind] in Hg. apply Ok_inj in Hg. subst g.
  apply all_nan_forall. intros x Hx.
  apply In_nth_error in Hx. destruct Hx as [j Hj].
  apply map2_nth_inv in Hj. destruct Hj as (gx & y & Hgx & Hy & ->).
  apply nth_error_map_Some in Hy. destruct Hy as (dj & Hdj & ->).
  unfold greening_side in Hgx.
  apply map2_nth_inv in Hgx. destruct Hgx as (t & sj & Ht & _ & ->).
  destruct (Z.ltb_spec t peak) as [Hlt | Hge].
  - rewrite (Hno _ _ _ Ht Hlt Hdj). reflexivity.
  - unfold where_ at 1 3. destruct (negb _); reflexivity.
Qed.

Lemma distance_all_nan s :
  forallb is_nan s = true -> forallb is_nan (distance s) = true.
Proof.
  rewrite !all_nan_forall. intros H x Hx. unfold distance in Hx.
  apply in_map_iff in Hx. destruct Hx as (y & <- & Hy).
  now rewrite (H y Hy).
Qed.

Lemma fabs_all_nan s :
  forallb is_nan s = true -> forallb is_nan (map fabs s) = true.
Proof.
  rewrite !all_nan_forall. intros H x Hx.
  apply in_map_iff in Hx. destruct Hx as (y & <- & Hy).
  now rewrite (H y Hy).
Qed.

(** Where a pixel is all NaN, a returning [allNaN_arg] holds NaN. *)
Lemma allNaN_arg_masked da stat y p s :
  allNaN_arg da stat = Ok (Some y) ->
  nth_error da p = Some s -> forallb is_nan s = true ->
  nth_error y p = Some NaN.
Proof.
  unfold allNaN_arg. intros H Hp Hs.
  destruct (String.eqb stat "max").
  - inv_bind. subst y.
    destruct (mapM_nth _ _ _ p (map (fillna (fsub a (Fin 1))) s) Ha0)
      as (i & _ & Hi).
    { rewrite nth_error_map, Hp. reflexivity. }
    erewrite map2_nth; [| rewrite nth_error_map, Hp; reflexivity | exact Hi].
    now rewrite Hs.
  - destruct (String.eqb stat "min"); [| discriminate].
    inv_bind. subst y.
    destruct (mapM_nth _ _ _ p (map (fillna (fadd a (Fin 1))) s) Ha0)
      as (i & _ & Hi).
    { rewrite nth_error_map, Hp. reflexivity. }
    erewrite map2_nth; [| rewrite nth_error_map, Hp; reflexivity | exact Hi].
    now rewrite Hs.
Qed.

(** The index that [_vsos] selects with: the cast of what [allNaN_arg]
    returned on the distances, or on their absolute values. *)
Lemma _vsos_inv da pos method_sos vsos :
  _vsos da pos method_sos = Ok vsos ->
  exists peaks pg G y,
    tcoord pos = Some peaks
    /\ mapM (fun sp => pos_greenup (time da) (snd sp) (fst sp))
            (combine (pixels da) peaks) = Ok pg
    /\ (G = map distance pg \/ G = map (map fabs) (map distance pg))
    /\ allNaN_arg G "min" = Ok (Some y)
    /\ isel (time da) pg (map float_to_int16 y) = Ok vsos.
Proof.
  unfold _vsos, time_of, astype_int16. intros H.
  destruct (tcoord pos) as [peaks |]; [| discriminate].
  cbn [bind] in H. inv_bind.
  exists peaks, a.
  destruct a1 as [idx |]; [| discriminate].
  destruct (String.eqb method_sos "median").
  - inv_bind. destruct a1; [| discriminate]. inv_bind. subst.
    eauto 10.
  - inv_bind. subst a0.
    destruct (String.eqb method_sos "first"); [| discriminate].
    inv_bind. destruct a0; [| discriminate]. inv_bind. subst.
    eauto 10.
Qed.

(** Where a pixel has no rising sample before its peak, [_vsos] holds NaN
    and the first timestamp. *)
Lemma _vsos_without_rising_sample da pos method_sos vsos p s :
  _pos da = Ok pos ->
  _vsos da pos method_sos = Ok vsos ->
  nth_error (pixels da) p = Some s ->
  no_rising_sample (time da) s ->
  nth_error (data vsos) p = Some NaN
  /\ exists t0 ts tc,
       time da = t0 :: ts /\ tcoord vsos = Some tc
       /\ nth_error tc p = Some t0.
Proof.
  intros Hpos Hvsos Hp (i & peak & d & Hi & Hpeak & Hd & Hno).
  unfold _pos in Hpos. inv_bind. subst pos.
  destruct (mapM_nth _ _ _ _ _ Ha Hp) as (i' & Hi' & Hni).
  rewrite Hi in Hi'. injection Hi' as <-.
  destruct (mapM_nth _ _ _ _ _ Ha0 Hni) as (peak' & Hpk & Hnpk).
  simpl in Hpk. apply index_of_nat in Hpk. rewrite Hpeak in Hpk.
  injection Hpk as <-.
  destruct (_vsos_inv _ _ _ _ Hvsos) as (peaks & pg & G & y & Hpeaks & Hpg
                                          & HG & Hy & Hsel).
  simpl in Hpeaks. injection Hpeaks as <-.
  destruct (mapM_nth _ _ _ _ _ Hpg (combine_nth_error _ _ _ _ _ Hp Hnpk))
    as (g & Hg & Hng).
  simpl in Hg.
  pose proof (pos_greenup_all_nan _ _ _ _ _ Hd Hno Hg) as Hnan.
  assert (exists row, nth_error G p = Some row
                      /\ forallb is_nan row = true) as (row & Hrow & Hrn).
  { destruct HG as [-> | ->].
    - exists (distance g). split; [| now apply distance_all_nan].
      rewrite nth_error_map, Hng. reflexivity.
    - exists (map fabs (distance g)).
      split; [| now apply fabs_all_nan, distance_all_nan].
      rewrite !nth_error_map, Hng. reflexivity. }
  pose proof (allNaN_arg_masked _ _ _ _ _ Hy Hrow Hrn) as Hyp.
  assert (nth_error (map float_to_int16 y) p = Some 0) as Hidx.
  { rewrite nth_error_map, Hyp. reflexivity. }
  unfold isel in Hsel. inv_bind. subst vsos.
  destruct (mapM_nth _ _ _ _ _ Ha1 (combine_nth_error _ _ _ _ _ Hng Hidx))
    as (x & Hx & Hnx).
  simpl in Hx. apply index_In in Hx.
  assert (x = NaN) as -> by exact (proj1 (all_nan_forall g) Hnan x Hx).
  destruct (mapM_nth _ _ _ _ _ Ha2 Hidx) as (t0 & Ht0 & Hnt0).
  apply index_0 in Ht0. destruct Ht0 as [ts Hts].
  split; [exact Hnx |]. simpl. eauto 6.
Qed.

(** C5: the second pixel of [da_falling] only falls, so none of its samples
    before the peak rises.  [allNaN_arg] marks it with NaN, the cast to
    [int16] makes that index 0, and the run reports NaN for vSOS but day 1
    for SOS: the day of the year of the first timestamp. *)
Theorem falling_pixel_start_of_season :
  no_rising_sample (time da_falling) falling_series
  /\ (exists pos g0 g1,
        _pos da_falling = Ok pos
        /\ tcoord pos = Some [date 2021 4 1; date 2021 1 1]
        /\ pos_greenup (time da_falling) (date 2021 4 1) spec_series = Ok g0
        /\ pos_greenup (time da_falling) (date 2021 1 1) falling_series
           = Ok g1
        /\ forallb is_nan g1 = true
        /\ allNaN_arg [distance g0; distance g1] "min"
           = Ok (Some [of_Z 0; NaN])
        /\ map float_to_int16 [of_Z 0; NaN] = [0; 0])
  /\ xr_phenology xr_0_16 da_falling ["vSOS"; "SOS"] "first" "last"
     = Ok (Computed
             (mkDataset [("vSOS", Floats [Fin (1#10); NaN]);
                         ("SOS", Ints [1; 1])] None))
  /\ map dayofyear (time da_falling) = [1; 32; 60; 91; 121; 152].
Proof.
  split.
  { exists 0%nat, (date 2021 1 1). eexists.
    split; [vm_compute; reflexivity |].
    split; [reflexivity |].
    split; [vm_compute; reflexivity |].
    intros j t dj Ht Hlt _. exfalso.
    do 6 (destruct j as [| j];
          [vm_compute in Ht; injection Ht as <-; vm_compute in Hlt;
           discriminate |]).
    destruct j; discriminate. }
  split.
  { do 3 eexists.
    split; [vm_compute; reflexivity |].
    split; [vm_compute; reflexivity |].
    split; [vm_compute; reflexivity |].
    split; [vm_compute; reflexivity |].
    split; vm_compute; split; reflexivity. }
  split; vm_compute; reflexivity.
Qed.

(** ** The slope of a series of zeros and NaN *)

Lemma fsub_zero_or_nan x y :
  zero_or_nan x = true -> zero_or_nan y = true ->
  zero_or_nan (fsub x y) = true.
Proof.
  destruct x as [[] | | |]; try discriminate;
    destruct y as [[] | | |]; try discriminate; reflexivity.
Qed.

Lemma fadd_zero_or_nan x y :
  zero_or_nan x = true -> zero_or_nan y = true ->
  zero_or_nan (fadd x y) = true.
Proof.
  destruct x as [[] | | |]; try discriminate;
    destruct y as [[] | | |]; try discriminate; reflexivity.
Qed.

Lemma fmul_zero_or_nan a x :
  zero_or_nan x = true -> zero_or_nan (fmul a x) = true.
Proof.
  destruct x as [s | | |]; try discriminate; intros _;
    destruct a; reflexivity.
Qed.

Lemma fdiv_zero_or_nan x y :
  zero_or_nan x = true -> zero_or_nan (fdiv x y) = true.
Proof.
  destruct x as [s | | |]; try discriminate; intros _;
    destruct y; reflexivity.
Qed.

Lemma zero_or_nan_not_positive x :
  zero_or_nan x = true -> fgtb x (Fin 0) = false.
Proof.
  destruct x as [s | | |]; try discriminate; reflexivity.
Qed.

Lemma nth_zero_or_nan l i :
  Forall (fun x => zero_or_nan x = true) l -> zero_or_nan (nth i l NaN) = true.
Proof.
  intros H. revert i. induction H as [| x l Hx _ IH]; intros [| i]; simpl;
    auto.
Qed.

Lemma gradient_interior_step uniform ax_dx x0 x1 x2 xs f0 f1 f2 fs :
  gradient_interior uniform ax_dx (x0 :: x1 :: x2 :: xs)
                    (f0 :: f1 :: f2 :: fs)
  = (if uniform then fdiv (fsub f2 f0) (fmul (Fin 2) ax_dx)
     else
       fadd (fadd (fmul (fdiv (fneg (fsub x2 x1))
                              (fmul (fsub x1 x0)
                                    (fadd (fsub x1 x0) (fsub x2 x1))))
                        f0)
                  (fmul (fdiv (fsub (fsub x2 x1) (fsub x1 x0))
                              (fmul (fsub x1 x0) (fsub x2 x1)))
                        f1))
            (fmul (fdiv (fsub x1 x0)
                        (fmul (fsub x2 x1)
                              (fadd (fsub x1 x0) (fsub x2 x1))))
                  f2))
    :: gradient_interior uniform ax_dx (x1 :: x2 :: xs) (f1 :: f2 :: fs).
Proof. reflexivity. Qed.

Lemma gradient_interior_zero_or_nan uniform ax_dx fs : forall xs,
  Forall (fun x => zero_or_nan x = true) fs ->
  Forall (fun x => zero_or_nan x = true) (gradient_interior uniform ax_dx xs fs).
Proof.
  induction fs as [| f0 fs IH]; intros xs H.
  - destruct xs as [| x0 [| x1 [| x2 xs]]]; constructor.
  - destruct xs as [| x0 [| x1 [| x2 xs]]];
      [constructor | constructor | constructor |].
    destruct fs as [| f1 [| f2 fs]]; [constructor | constructor |].
    rewrite gradient_interior_step.
    inversion H as [| ? ? H0 H']; subst.
    inversion H' as [| ? ? H1 H'']; subst.
    inversion H'' as [| ? ? H2 _]; subst.
    constructor; [| apply IH; exact H'].
    destruct uniform.
    + apply fdiv_zero_or_nan, fsub_zero_or_nan; assumption.
    + repeat apply fadd_zero_or_nan; apply fmul_zero_or_nan; assumption.
Qed.

Lemma gradient_zero_or_nan xs fs d :
  Forall (fun x => zero_or_nan x = true) fs ->
  gradient xs fs = Ok d ->
  Forall (fun x => zero_or_nan x = true) d.
Proof.
  intros H. unfold gradient.
  destruct (negb (length xs =? length fs)%nat); [discriminate |].
  destruct (diffs xs) as [| dx0 dxs] eqn:E; [discriminate |].
  intros Hd. apply Ok_inj in Hd. subst d.
  constructor.
  - apply fdiv_zero_or_nan, fsub_zero_or_nan; now apply nth_zero_or_nan.
  - apply Forall_app. split.
    + now apply gradient_interior_zero_or_nan.
    + repeat constructor.
      apply fdiv_zero_or_nan, fsub_zero_or_nan; now apply nth_zero_or_nan.
Qed.

Lemma greening_side_zeros {A} ts peak (s : list A) :
  Forall (fun x => zero_or_nan x = true)
         (greening_side ts peak (map (fun _ => Fin 0) s)).
Proof.
  unfold greening_side. revert s.
  induction ts as [| t ts IH]; intros [| a s]; simpl; constructor.
  - destruct (t <? peak); reflexivity.
  - apply IH.
Qed.

(** A zero-filled pixel has no rising sample, once its slope exists. *)
Lemma zeros_no_rising_sample {A} ts (s : list A) t0 ts' g :
  s <> [] -> ts = t0 :: ts' ->
  pos_greenup ts t0 (map (fun _ => Fin 0) s) = Ok g ->
  no_rising_sample ts (map (fun _ => Fin 0) s).
Proof.
  intros Hne Hts Hg.
  unfold pos_greenup in Hg. apply bind_Ok in Hg.
  destruct Hg as (d & Hd & _).
  exists 0%nat, t0, d.
  split; [now apply nanargmax_zeros |].
  split; [rewrite Hts; reflexivity |].
  split; [exact Hd |].
  intros j t dj _ _ Hj.
  apply zero_or_nan_not_positive.
  pose proof (gradient_zero_or_nan _ _ _ (greening_side_zeros ts t0 s) Hd)
    as Hz.
  rewrite Forall_forall in Hz. apply Hz.
  eapply nth_error_In; eassumption.
Qed.

(** C1, amended: a pixel that is all NaN is filled with zeros before the
    reductions and no mask is applied to the results.  In every run that
    returns, vSOS and ROG are NaN at that pixel, as claimed, but vPOS,
    Trough and AOS are the number 0 and POS is the day of the year of the
    first timestamp. *)
Theorem unobserved_pixel_is_zero_filled v da stats method_sos method_eos
    ds p :
  well_formed da ->
  xr_phenology v da stats method_sos method_eos = Ok (Computed ds) ->
  all_nan_pixel da p ->
  (forall name c,
     In name ["vSOS"; "ROG"] ->
     lookup name (data_vars ds) = Some c ->
     exists l, c = Floats l /\ nth_error l p = Some NaN)
  /\ (forall name c,
        In name ["vPOS"; "Trough"; "AOS"] ->
        lookup name (data_vars ds) = Some c ->
        exists l, c = Floats l /\ nth_error l p = Some (Fin 0))
  /\ (forall c,
        lookup "POS" (data_vars ds) = Some c ->
        exists l t0 ts,
          c = Ints l /\ time da = t0 :: ts
          /\ nth_error l p = Some (dayofyear t0)).
Proof.
  intros Hwf Hrun (s & Hp & Hs).
  destruct (xr_phenology_Computed _ _ _ _ _ _ Hrun)
    as (_ & _ & _ & d & Hdict & Has).
  destruct (assemble_spec _ _ _ Has) as (T & _ & _ & _).
  destruct (stats_dict_inv _ _ _ _ Hdict)
    as (vpos & pos & trough & vsos & sos & veos & eos & los
        & Hvpos & Hpos & Htrough & Hvsos & Hsos & _ & _ & _ & ->).
  pose proof (zero_fill_all_nan _ _ _ Hp Hs) as Hz.
  assert (time (zero_fill da) = time da) as Htime by reflexivity.
  remember (zero_fill da) as da' eqn:Eda. clear Eda.
  assert (s <> []) as Hne.
  { unfold _vpos in Hvpos. rewrite Htime in Hvpos.
    unfold well_formed in Hwf. rewrite Forall_forall in Hwf.
    specialize (Hwf s (nth_error_In _ _ Hp)).
    destruct (time da); [discriminate |].
    destruct s; [discriminate | congruence]. }
  assert (nth_error (data vpos) p = Some (Fin 0)) as Cv.
  { unfold _vpos in Hvpos. destruct (time da'); [discriminate |].
    injection Hvpos as <-. cbn [data].
    rewrite nth_error_map, Hz. cbn [option_map].
    now rewrite nanmax_zeros. }
  assert (nth_error (data trough) p = Some (Fin 0)) as Ct.
  { unfold _trough in Htrough. destruct (time da'); [discriminate |].
    injection Htrough as <-. cbn [data].
    rewrite nth_error_map, Hz. cbn [option_map].
    now rewrite nanmin_zeros. }
  (* the peak of the pixel is the first timestamp *)
  pose proof Hpos as Hpos'.
  unfold _pos in Hpos'. inv_bind.
  destruct (mapM_nth _ _ _ _ _ Ha Hz) as (i & Hi & Hni).
  rewrite nanargmax_zeros in Hi by exact Hne. injection Hi as <-.
  destruct (mapM_nth _ _ _ _ _ Ha0 Hni) as (t0 & Ht0 & Hnt).
  simpl in Ht0. apply index_0 in Ht0. destruct Ht0 as [ts Hts].
  assert (nth_error (data pos) p = Some (dayofyear t0)) as Cp.
  { subst pos. cbn [data]. rewrite nth_error_map, Hnt. reflexivity. }
  (* it has no rising sample *)
  assert (no_rising_sample (time da')
            (map (fun _ : fval => Fin 0) s)) as Hno.
  { destruct (_vsos_inv _ _ _ _ Hvsos) as (peaks & pg & _ & _ & Hpeaks & Hpg
                                            & _).
    subst pos. simpl in Hpeaks. injection Hpeaks as <-.
    destruct (mapM_nth _ _ _ _ _ Hpg (combine_nth_error _ _ _ _ _ Hz Hnt))
      as (g & Hg & _).
    simpl in Hg. eapply zeros_no_rising_sample; eassumption. }
  destruct (_vsos_without_rising_sample _ _ _ _ _ _ Hpos Hvsos Hz Hno)
    as (Cs & t0' & ts' & tc & Hts' & Htc & Hntc).
  assert (nth_error (data (_rog vpos vsos pos sos)) p = Some NaN) as Cr.
  { assert (nth_error (data sos) p = Some (dayofyear t0')) as Cso.
    { unfold _sos, time_of in Hsos. rewrite Htc in Hsos.
      cbn [bind] in Hsos. apply Ok_inj in Hsos. subst sos.
      cbn [data]. rewrite nth_error_map, Hntc. reflexivity. }
    unfold _rog, binop. cbn [data].
    rewrite (map2_nth _ _ _ _ _ _ (map2_nth _ _ _ _ _ _ Cv Cs)
                      (map2_nth _ _ _ _ _ _ Cp Cso)).
    reflexivity. }
  split; [| split].
  - intros name c Hin Hc.
    destruct (T _ _ Hc) as (x & Dx & <-).
    destruct Hin as [<- | [<- | []]]; simpl in Dx;
      injection Dx as <-; cbn [astype_float32 values];
      eexists; (split; [reflexivity |]).
    + exact Cs.
    + exact Cr.
  - intros name c Hin Hc.
    destruct (T _ _ Hc) as (x & Dx & <-).
    destruct Hin as [<- | [<- | [<- | []]]]; simpl in Dx;
      injection Dx as <-; simpl; eexists; (split; [reflexivity |]).
    + exact Cv.
    + exact Ct.
    + erewrite map2_nth; [| exact Cv | exact Ct]. reflexivity.
  - intros c Hc.
    destruct (T _ _ Hc) as (x & Dx & <-).
    simpl in Dx. injection Dx as <-.
    do 3 eexists. split; [reflexivity |].
    split; [rewrite <- Htime; exact Hts |].
    cbn [astype_int16_of_int values]. 
    rewrite nth_error_map, Cp. simpl. now rewrite to_int16_dayofyear.
Qed.

Lemma unobserved_pixel_is_zero_filled_witness :
  (forall name c,
     In name ["vSOS"; "ROG"] ->
     lookup name
       (data_vars
          (mkDataset [("vSOS", Floats [Fin (1#10); NaN]);
                      ("ROG", Floats [Fin (2#225); NaN]);
                      ("vPOS", Floats [Fin (9#10); Fin 0]);
                      ("POS", Ints [91; 1])] None)) = Some c ->
     exists l, c = Floats l /\ nth_error l 1 = Some NaN)
  /\ (forall name c,
        In name ["vPOS"; "Trough"; "AOS"] ->
        lookup name
          (data_vars
             (mkDataset [("vSOS", Floats [Fin (1#10); NaN]);
                         ("ROG", Floats [Fin (2#225); NaN]);
                         ("vPOS", Floats [Fin (9#10); Fin 0]);
                         ("POS", Ints [91; 1])] None)) = Some c ->
        exists l, c = Floats l /\ nth_error l 1 = Some (Fin 0))
  /\ (forall c,
        lookup "POS"
          (data_vars
             (mkDataset [("vSOS", Floats [Fin (1#10); NaN]);
                         ("ROG", Floats [Fin (2#225); NaN]);
                         ("vPOS", Floats [Fin (9#10); Fin 0]);
                         ("POS", Ints [91; 1])] None)) = Some c ->
        exists l t0 ts,
          c = Ints l /\ time da_unobserved = t0 :: ts
          /\ nth_error l 1 = Some (dayofyear t0)).
Proof.
  apply (unobserved_pixel_is_zero_filled xr_0_16 da_unobserved
           ["vSOS"; "ROG"; "vPOS"; "POS"] "first" "last").
  - repeat constructor.
  - vm_compute. reflexivity.
  - eexists. split; reflexivity.
Defined.

(** ** [allNaN_arg] on an array without a valid cell *)

Lemma fold_max_all_nan l :
  forallb is_nan l = true -> fold_left max_step l NaN = NaN.
Proof.
  induction l as [| x l IH]; simpl; [reflexivity |].
  intros H. apply andb_true_iff in H. destruct H as [Hx Hl].
  unfold max_step at 2. rewrite Hx. auto.
Qed.

Lemma fold_min_all_nan l :
  forallb is_nan l = true -> fold_left min_step l NaN = NaN.
Proof.
  induction l as [| x l IH]; simpl; [reflexivity |].
  intros H. apply andb_true_iff in H. destruct H as [Hx Hl].
  unfold min_step at 2. rewrite Hx. auto.
Qed.

Lemma concat_all_nan da :
  Forall (fun s => forallb is_nan s = true) da ->
  forallb is_nan (concat da) = true.
Proof.
  induction 1 as [| s da Hs _ IH]; simpl; [reflexivity |].
  rewrite forallb_app, Hs, IH. reflexivity.
Qed.

Lemma fillna_nan_all_nan s :
  forallb is_nan s = true -> map (fillna NaN) s = s.
Proof.
  induction s as [| x s IH]; simpl; [reflexivity |].
  intros H. apply andb_true_iff in H. destruct H as [Hx Hs].
  destruct x; try discriminate. simpl. f_equal. auto.
Qed.

Lemma global_nanmax_Ok g :
  concat g <> [] -> global_nanmax g = Ok (nanmax (concat g)).
Proof.
  unfold global_nanmax. destruct (concat g); [contradiction | reflexivity].
Qed.

Lemma global_nanmin_Ok g :
  concat g <> [] -> global_nanmin g = Ok (nanmin (concat g)).
Proof.
  unfold global_nanmin. destruct (concat g); [contradiction | reflexivity].
Qed.

(** C2: on an array that has cells and whose cells are all NaN, the fill
    value is NaN as well ([da.min() - 1] or [da.max() + 1] of nothing but
    NaN), [fillna] changes nothing and the reduction refuses the first
    pixel: [allNaN_arg] raises instead of returning NaN for the pixels. *)
Theorem allNaN_arg_all_nan_array_raises s da stat :
  stat = "min" \/ stat = "max" ->
  s <> [] ->
  Forall (fun r => forallb is_nan r = true) (s :: da) ->
  allNaN_arg (s :: da) stat = Raise all_nan_slice.
Proof.
  intros Hstat Hne Hall.
  pose proof (concat_all_nan _ Hall) as Hc.
  assert (forallb is_nan s = true) as Hs by (inversion Hall; assumption).
  assert (concat (s :: da) <> []) as Hcne.
  { simpl. destruct s; [contradiction | discriminate]. }
  unfold allNaN_arg.
  destruct Hstat as [-> | ->]; cbn [String.eqb Ascii.eqb Bool.eqb].
  - rewrite (global_nanmax_Ok _ Hcne).
    unfold nanmax. rewrite (fold_max_all_nan _ Hc).
    cbn [bind fadd SFadd map mapM]. rewrite (fillna_nan_all_nan _ Hs).
    unfold nanargmin. destruct s; [contradiction |]. now rewrite Hs.
  - rewrite (global_nanmin_Ok _ Hcne).
    unfold nanmin. rewrite (fold_min_all_nan _ Hc).
    cbn [bind fsub SFsub map mapM]. rewrite (fillna_nan_all_nan _ Hs).
    unfold nanargmax. destruct s; [contradiction |]. now rewrite Hs.
Qed.

Lemma allNaN_arg_all_nan_array_raises_witness :
  allNaN_arg [[NaN; NaN]] "min" = Raise all_nan_slice.
Proof.
  apply allNaN_arg_all_nan_array_raises.
  - left. reflexivity.
  - discriminate.
  - repeat constructor.
Defined.

(** ** [allNaN_arg] on an array with a valid cell *)

(** Closes an equivalence between a computed comparison and an order on
    integers. *)
Ltac rank_done :=
  first [ split; [discriminate | lia] | split; [lia | reflexivity] ].

(** Closes a goal about the order of ranks by integer arithmetic. *)
Ltac rank_lia :=
  unfold rank_lt in *;
  repeat match goal with
  | |- context [rank ?x] => destruct (rank x) as [[? ?] ?]
  | H : context [rank ?x] |- _ => destruct (rank x) as [[? ?] ?]
  end;
  lia.

(** The rank of a cell that is not NaN: [<] on cells is the
    lexicographic order of the ranks. *)
Lemma fltb_rank x y :
  is_nan x = false -> is_nan y = false ->
  (fltb x y = true <-> rank_lt (rank x) (rank y)).
Proof.
  unfold fltb, SFltb, rank_lt.
  destruct x as [sx | sx | | sx mx ex]; try discriminate;
    destruct y as [sy | sy | | sy my ey]; try discriminate; intros _ _;
    try destruct sx; try destruct sy; simpl; try rank_done.
  all: destruct (Z.compare_spec ex ey); try rank_done.
  all: fold (Pos.compare mx my); destruct (Pos.compare_spec mx my); simpl;
    rank_done.
Qed.

Lemma fltb_true_valid x y :
  fltb x y = true -> is_nan x = false /\ is_nan y = false.
Proof.
  unfold fltb, SFltb.
  destruct x as [sx | sx | | sx mx ex]; destruct y as [sy | sy | | sy my ey];
    simpl; try discriminate; auto.
Qed.

Lemma fltb_irrefl x : fltb x x = false.
Proof.
  destruct (fltb x x) eqn:E; [| reflexivity].
  destruct (fltb_true_valid _ _ E) as [Hx _].
  apply (fltb_rank _ _ Hx Hx) in E. rank_lia.
Qed.

Lemma fltb_trans x y z :
  fltb x y = true -> fltb y z = true -> fltb x z = true.
Proof.
  intros H1 H2.
  destruct (fltb_true_valid _ _ H1) as [Hx Hy].
  destruct (fltb_true_valid _ _ H2) as [_ Hz].
  apply (fltb_rank _ _ Hx Hy) in H1. apply (fltb_rank _ _ Hy Hz) in H2.
  apply (fltb_rank _ _ Hx Hz). rank_lia.
Qed.

Lemma fltb_asym x y : fltb x y = true -> fltb y x = false.
Proof.
  intros H. destruct (fltb y x) eqn:E; [| reflexivity].
  pose proof (fltb_trans _ _ _ H E) as C. now rewrite fltb_irrefl in C.
Qed.

(** Among cells that are not NaN, [<] is the strict part of a total
    order. *)
Lemma fltb_between x y z :
  is_nan x = false -> is_nan y = false ->
  fltb x y = false -> fltb x z = true -> fltb y z = true.
Proof.
  intros Hx Hy H1 H2.
  destruct (fltb_true_valid _ _ H2) as [_ Hz].
  apply (fltb_rank _ _ Hx Hz) in H2. apply (fltb_rank _ _ Hy Hz).
  assert (~ rank_lt (rank x) (rank y)) as N
    by (rewrite <- (fltb_rank _ _ Hx Hy); congruence).
  rank_lia.
Qed.

Lemma fltb_not_above x y z :
  fltb x y = false -> fltb x z = true -> fltb z y = false.
Proof.
  intros H1 H2. destruct (fltb z y) eqn:E; [| reflexivity].
  pose proof (fltb_trans _ _ _ H2 E). congruence.
Qed.

Lemma nth_error_snoc {A} (pre : list A) x j y :
  nth_error (pre ++ [x]) j = Some y ->
  ((j < length pre)%nat /\ nth_error pre j = Some y)
  \/ (j = length pre /\ y = x).
Proof.
  intros H. destruct (Nat.lt_ge_cases j (length pre)) as [Hlt | Hge].
  - left. split; [exact Hlt |]. now rewrite nth_error_app1 in H.
  - right. rewrite nth_error_app2 in H by exact Hge.
    destruct (j - length pre)%nat as [| k] eqn:E; simpl in H.
    + split; [lia | congruence].
    + destruct k; discriminate.
Qed.

Lemma no_nan_nth l j y : no_nan l -> nth_error l j = Some y -> is_nan y = false.
Proof.
  intros H Hj. unfold no_nan in H. rewrite Forall_forall in H.
  apply H. eapply nth_error_In; eassumption.
Qed.

Lemma argmax_scan_spec l : forall pre best besti,
  no_nan (pre ++ l) ->
  nth_error pre besti = Some best ->
  first_greatest pre besti ->
  first_greatest (pre ++ l) (argmax_scan best besti (length pre) l).
Proof.
  induction l as [| x l IH]; intros pre best besti Hnn Hb Hfg.
  - simpl. now rewrite app_nil_r.
  - assert (no_nan (pre ++ [x])) as Hnn'.
    { unfold no_nan in *. rewrite Forall_app in *.
      destruct Hnn as [Hp Hx]. split; [exact Hp |].
      inversion Hx; subst. repeat constructor. assumption. }
    destruct Hfg as (b & Hb' & Hmax & Hfirst).
    rewrite Hb in Hb'. injection Hb' as <-.
    assert (is_nan best = false) as Nb.
    { eapply (no_nan_nth (pre ++ [x])); [exact Hnn' |].
      rewrite nth_error_app1; [exact Hb |].
      apply nth_error_Some. congruence. }
    replace (pre ++ x :: l) with ((pre ++ [x]) ++ l) in *
      by (rewrite <- app_assoc; reflexivity).
    replace (S (length pre)) with (length (pre ++ [x]))
      by (rewrite length_app; simpl; lia).
    simpl. destruct (fltb best x) eqn:E.
    + replace (S (length pre)) with (length (pre ++ [x]))
        by (rewrite length_app; simpl; lia).
      apply IH; [exact Hnn | |].
      * rewrite nth_error_app2 by lia. now rewrite Nat.sub_diag.
      * exists x. split.
        { rewrite nth_error_app2 by lia. now rewrite Nat.sub_diag. }
        split.
        -- intros j y Hy. apply nth_error_snoc in Hy.
           destruct Hy as [[_ Hy] | [_ ->]].
           ++ eapply fltb_not_above; [eapply Hmax; exact Hy | exact E].
           ++ apply fltb_irrefl.
        -- intros j y Hj Hy. apply nth_error_snoc in Hy.
           destruct Hy as [[_ Hy] | [-> _]]; [| lia].
           eapply fltb_between; [exact Nb | | eapply Hmax; exact Hy | exact E].
           eapply (no_nan_nth (pre ++ [x])); [exact Hnn' |].
           rewrite nth_error_app1; [exact Hy |].
           apply nth_error_Some. congruence.
    + replace (S (length pre)) with (length (pre ++ [x]))
        by (rewrite length_app; simpl; lia).
      assert (besti < length pre)%nat as Hlt
        by (apply nth_error_Some; congruence).
      apply IH; [exact Hnn | |].
      * rewrite nth_error_app1 by exact Hlt. exact Hb.
      * exists best. split.
        { rewrite nth_error_app1 by exact Hlt. exact Hb. }
        split.
        -- intros j y Hy. apply nth_error_snoc in Hy.
           destruct Hy as [[_ Hy] | [_ ->]]; [eapply Hmax; exact Hy | exact E].
        -- intros j y Hj Hy. apply nth_error_snoc in Hy.
           destruct Hy as [[_ Hy] | [-> _]]; [| lia].
           eapply Hfirst; eassumption.
Qed.

Lemma fltb_below x y z :
  is_nan x = false -> is_nan y = false ->
  fltb y x = false -> fltb z x = true -> fltb z y = true.
Proof.
  intros Hx Hy H1 H2.
  destruct (fltb_true_valid _ _ H2) as [Hz _].
  apply (fltb_rank _ _ Hz Hx) in H2. apply (fltb_rank _ _ Hz Hy).
  assert (~ rank_lt (rank y) (rank x)) as N
    by (rewrite <- (fltb_rank _ _ Hy Hx); congruence).
  rank_lia.
Qed.

Lemma fltb_not_below x y z :
  fltb y x = false -> fltb z x = true -> fltb y z = false.
Proof.
  intros H1 H2. destruct (fltb y z) eqn:E; [| reflexivity].
  pose proof (fltb_trans _ _ _ E H2). congruence.
Qed.

Lemma argmin_scan_spec l : forall pre best besti,
  no_nan (pre ++ l) ->
  nth_error pre besti = Some best ->
  first_least pre besti ->
  first_least (pre ++ l) (argmin_scan best besti (length pre) l).
Proof.
  induction l as [| x l IH]; intros pre best besti Hnn Hb Hfl.
  - simpl. now rewrite app_nil_r.
  - assert (no_nan (pre ++ [x])) as Hnn'.
    { unfold no_nan in *. rewrite Forall_app in *.
      destruct Hnn as [Hp Hx]. split; [exact Hp |].
      inversion Hx; subst. repeat constructor. assumption. }
    destruct Hfl as (b & Hb' & Hmin & Hfirst).
    rewrite Hb in Hb'. injection Hb' as <-.
    assert (besti < length pre)%nat as Hlt
      by (apply nth_error_Some; congruence).
    assert (is_nan best = false) as Nb.
    { eapply (no_nan_nth (pre ++ [x])); [exact Hnn' |].
      rewrite nth_error_app1; [exact Hb | exact Hlt]. }
    replace (pre ++ x :: l) with ((pre ++ [x]) ++ l) in *
      by (rewrite <- app_assoc; reflexivity).
    simpl. replace (S (length pre)) with (length (pre ++ [x]))
      by (rewrite length_app; simpl; lia).
    destruct (fltb x best) eqn:E.
    + apply IH; [exact Hnn | |].
      * rewrite nth_error_app2 by lia. now rewrite Nat.sub_diag.
      * exists x. split.
        { rewrite nth_error_app2 by lia. now rewrite Nat.sub_diag. }
        split.
        -- intros j y Hy. apply nth_error_snoc in Hy.
           destruct Hy as [[_ Hy] | [_ ->]].
           ++ eapply fltb_not_below; [eapply Hmin; exact Hy | exact E].
           ++ apply fltb_irrefl.
        -- intros j y Hj Hy. apply nth_error_snoc in Hy.
           destruct Hy as [[Hjl Hy] | [-> _]]; [| lia].
           eapply fltb_below; [exact Nb | | eapply Hmin; exact Hy | exact E].
           eapply (no_nan_nth (pre ++ [x])); [exact Hnn' |].
           rewrite nth_error_app1; [exact Hy | exact Hjl].
    + apply IH; [exact Hnn | |].
      * rewrite nth_error_app1 by exact Hlt. exact Hb.
      * exists best. split.
        { rewrite nth_error_app1 by exact Hlt. exact Hb. }
        split.
        -- intros j y Hy. apply nth_error_snoc in Hy.
           destruct Hy as [[_ Hy] | [_ ->]]; [eapply Hmin; exact Hy | exact E].
        -- intros j y Hj Hy. apply nth_error_snoc in Hy.
           destruct Hy as [[_ Hy] | [-> _]]; [| lia].
           eapply Hfirst; eassumption.
Qed.

Lemma argmax_spec l : l <> [] -> no_nan l -> first_greatest l (argmax l).
Proof.
  destruct l as [| x l]; [contradiction |]. intros _ Hnn.
  apply (argmax_scan_spec l [x] x 0%nat Hnn eq_refl).
  exists x. split; [reflexivity |]. split.
  - intros [| [| j]] y Hy; simpl in Hy; try discriminate.
    injection Hy as <-. apply fltb_irrefl.
  - intros j y Hj. lia.
Qed.

Lemma argmin_spec l : l <> [] -> no_nan l -> first_least l (argmin l).
Proof.
  destruct l as [| x l]; [contradiction |]. intros _ Hnn.
  apply (argmin_scan_spec l [x] x 0%nat Hnn eq_refl).
  exists x. split; [reflexivity |]. split.
  - intros [| [| j]] y Hy; simpl in Hy; try discriminate.
    injection Hy as <-. apply fltb_irrefl.
  - intros j y Hj. lia.
Qed.

Lemma fillna_no_nan v l : is_nan v = false -> no_nan (map (fillna v) l).
Proof.
  intros Hv. unfold no_nan. rewrite Forall_map. apply Forall_forall.
  intros x _. unfold fillna. destruct (is_nan x) eqn:E; assumption.
Qed.

Lemma fillna_id v l : no_nan l -> map (fillna v) l = l.
Proof.
  induction 1 as [| x l Hx _ IH]; simpl; [reflexivity |].
  unfold fillna at 1. rewrite Hx. now f_equal.
Qed.

Lemma nanargmax_no_nan l :
  l <> [] -> no_nan l -> nanargmax l = Ok (argmax l).
Proof.
  intros Hne Hnn. unfold nanargmax.
  destruct l as [| x l]; [contradiction |].
  assert (forallb is_nan (x :: l) = false) as ->.
  { simpl. apply Forall_inv in Hnn. now rewrite Hnn. }
  now rewrite fillna_id.
Qed.

Lemma nanargmin_no_nan l :
  l <> [] -> no_nan l -> nanargmin l = Ok (argmin l).
Proof.
  intros Hne Hnn. unfold nanargmin.
  destruct l as [| x l]; [contradiction |].
  assert (forallb is_nan (x :: l) = false) as ->.
  { simpl. apply Forall_inv in Hnn. now rewrite Hnn. }
  now rewrite fillna_id.
Qed.

Lemma max_step_valid acc x :
  is_nan acc = false -> is_nan (max_step acc x) = false.
Proof.
  intros H. unfold max_step. destruct (is_nan x) eqn:E; [exact H |].
  rewrite H. destruct (fltb acc x); assumption.
Qed.

Lemma min_step_valid acc x :
  is_nan acc = false -> is_nan (min_step acc x) = false.
Proof.
  intros H. unfold min_step. destruct (is_nan x) eqn:E; [exact H |].
  rewrite H. destruct (fltb x acc); assumption.
Qed.

Lemma fold_max_valid l : forall acc,
  is_nan acc = false \/ (exists x, In x l /\ is_nan x = false) ->
  is_nan (fold_left max_step l acc) = false.
Proof.
  induction l as [| y l IH]; simpl; intros acc H.
  - destruct H as [H | (x & [] & _)]. exact H.
  - apply IH. destruct H as [H | (x & [<- | Hx] & Hn)].
    + left. now apply max_step_valid.
    + left. unfold max_step. rewrite Hn.
      destruct (is_nan acc) eqn:E; [exact Hn |].
      destruct (fltb acc y); assumption.
    + right. eauto.
Qed.

Lemma fold_min_valid l : forall acc,
  is_nan acc = false \/ (exists x, In x l /\ is_nan x = false) ->
  is_nan (fold_left min_step l acc) = false.
Proof.
  induction l as [| y l IH]; simpl; intros acc H.
  - destruct H as [H | (x & [] & _)]. exact H.
  - apply IH. destruct H as [H | (x & [<- | Hx] & Hn)].
    + left. now apply min_step_valid.
    + left. unfold min_step. rewrite Hn.
      destruct (is_nan acc) eqn:E; [exact Hn |].
      destruct (fltb y acc); assumption.
    + right. eauto.
Qed.

(** Rounding never makes NaN. *)
Lemma shr_1_nonneg mrs : 0 <= shr_m mrs -> 0 <= shr_m (shr_1 mrs).
Proof.
  destruct mrs as [m r s]. simpl.
  destruct m as [| p | p]; [simpl; lia | | lia].
  destruct p; simpl; lia.
Qed.

Lemma iter_pos_shr_1_nonneg p : forall mrs,
  0 <= shr_m mrs -> 0 <= shr_m (iter_pos shr_1 p mrs).
Proof.
  induction p as [p IH | p IH |]; simpl; intros mrs H.
  - apply IH, IH, shr_1_nonneg, H.
  - apply IH, IH, H.
  - apply shr_1_nonneg, H.
Qed.

Lemma shr_fexp_nonneg prec emax m e l :
  0 <= m -> 0 <= shr_m (fst (shr_fexp prec emax m e l)).
Proof.
  intros H. unfold shr_fexp, shr.
  assert (0 <= shr_m (shr_record_of_loc m l)) as H0.
  { destruct l as [| []]; simpl; exact H. }
  destruct (fexp prec emax (Zdigits2 m + e) - e); simpl; try exact H0.
  apply iter_pos_shr_1_nonneg, H0.
Qed.

Lemma round_nearest_even_nonneg m l : 0 <= m -> 0 <= round_nearest_even m l.
Proof.
  intros H. destruct l as [| []]; simpl; try lia.
  destruct (Z.even m); lia.
Qed.

Lemma binary_round_aux_valid prec emax sx mx ex lx :
  0 <= mx -> is_nan (binary_round_aux prec emax sx mx ex lx) = false.
Proof.
  intros H. unfold binary_round_aux.
  pose proof (shr_fexp_nonneg prec emax mx ex lx H) as H1.
  destruct (shr_fexp prec emax mx ex lx) as [mrs' e']. simpl in H1.
  pose proof (shr_fexp_nonneg prec emax _ e' loc_Exact
                (round_nearest_even_nonneg _ (loc_of_shr_record mrs') H1))
    as H2.
  destruct (shr_fexp prec emax
              (round_nearest_even (shr_m mrs') (loc_of_shr_record mrs'))
              e' loc_Exact) as [mrs'' e'']. simpl in H2.
  destruct (shr_m mrs'') as [| m | m]; [reflexivity | | lia].
  destruct (e'' <=? emax - prec); reflexivity.
Qed.

Lemma binary_normalize_valid prec emax m e sz :
  is_nan (binary_normalize prec emax m e sz) = false.
Proof.
  destruct m as [| p | p]; simpl; [reflexivity | |];
    unfold binary_round;
    destruct (shl_align _ _ _) as [mz ez];
    apply binary_round_aux_valid; lia.
Qed.

Lemma Fin_1 : Fin 1 = S754_finite false 4503599627370496 (-52).
Proof. reflexivity. Qed.

Lemma fsub_1_valid x : is_nan x = false -> is_nan (fsub x (Fin 1)) = false.
Proof.
  rewrite Fin_1. destruct x as [s | s | | s m e]; try discriminate;
    intros _; try reflexivity.
  unfold fsub, SFsub. apply binary_normalize_valid.
Qed.

Lemma fadd_1_valid x : is_nan x = false -> is_nan (fadd x (Fin 1)) = false.
Proof.
  rewrite Fin_1. destruct x as [s | s | | s m e]; try discriminate;
    intros _; try reflexivity.
  unfold fadd, SFadd. apply binary_normalize_valid.
Qed.

Lemma substitute_valid da stat :
  (exists x, In x (concat da) /\ is_nan x = false) ->
  is_nan (substitute da stat) = false.
Proof.
  intros H. unfold substitute. destruct (String.eqb stat "max").
  - apply fsub_1_valid. exact (fold_min_valid (concat da) NaN (or_intror H)).
  - apply fadd_1_valid. exact (fold_max_valid (concat da) NaN (or_intror H)).
Qed.

Lemma mapM_map {A B} (f : A -> result B) (g : A -> B) l :
  (forall a, In a l -> f a = Ok (g a)) -> mapM f l = Ok (map g l).
Proof.
  induction l as [| a l IH]; simpl; intros H; [reflexivity |].
  rewrite (H a) by auto. simpl. rewrite IH by auto. reflexivity.
Qed.

(** Where the array has a valid cell and no pixel has an empty series,
    [allNaN_arg] returns: NaN at a pixel that is all NaN and, at any other
    pixel, the first position of the extremum of its series after NaN was
    replaced by [da.min() - 1] for ["max"], by [da.max() + 1] for
    ["min"]. *)
Lemma allNaN_arg_with_valid_cell da stat :
  stat = "max" \/ stat = "min" ->
  Forall (fun s => s <> []) da ->
  (exists x, In x (concat da) /\ is_nan x = false) ->
  exists y,
    allNaN_arg da stat = Ok (Some y)
    /\ length y = length da
    /\ forall p s,
         nth_error da p = Some s ->
         exists c,
           nth_error y p = Some c
           /\ if forallb is_nan s then c = NaN
              else exists i,
                  c = of_Z (Z.of_nat i)
                  /\ (if String.eqb stat "max" then first_greatest
                      else first_least)
                       (map (fillna (substitute da stat)) s) i.
Proof.
  intros Hstat Hrows Hvalid.
  pose proof (substitute_valid da stat Hvalid) as Hfill.
  assert (concat da <> []) as Hne.
  { destruct Hvalid as (x & Hx & _). destruct (concat da); [destruct Hx |].
    discriminate. }
  assert (forall s, In s da ->
            map (fillna (substitute da stat)) s <> []
            /\ no_nan (map (fillna (substitute da stat)) s)) as Hrow.
  { intros s Hs. split; [| now apply fillna_no_nan].
    rewrite Forall_forall in Hrows. specialize (Hrows s Hs).
    destruct s; [contradiction | discriminate]. }
  unfold allNaN_arg.
  destruct Hstat as [-> | ->]; cbn [String.eqb Ascii.eqb Bool.eqb];
    unfold substitute in Hfill, Hrow;
    cbn [String.eqb Ascii.eqb Bool.eqb] in Hfill, Hrow;
    unfold substitute; cbn [String.eqb Ascii.eqb Bool.eqb].
  - rewrite (global_nanmin_Ok _ Hne). cbn [bind].
    rewrite (mapM_map _ argmax).
    2:{ intros r Hr. apply in_map_iff in Hr. destruct Hr as (s & <- & Hs).
        destruct (Hrow s Hs). now apply nanargmax_no_nan. }
    cbn [bind]. eexists. split; [reflexivity |].
    split; [rewrite map2_length, !length_map; lia |].
    intros p s Hp.
    eexists. split.
    { apply map2_nth; rewrite !nth_error_map, Hp; reflexivity. }
    destruct (forallb is_nan s); [reflexivity |].
    eexists. split; [reflexivity |].
    destruct (Hrow s (nth_error_In _ _ Hp)). now apply argmax_spec.
  - rewrite (global_nanmax_Ok _ Hne). cbn [bind].
    rewrite (mapM_map _ argmin).
    2:{ intros r Hr. apply in_map_iff in Hr. destruct Hr as (s & <- & Hs).
        destruct (Hrow s Hs). now apply nanargmin_no_nan. }
    cbn [bind]. eexists. split; [reflexivity |].
    split; [rewrite map2_length, !length_map; lia |].
    intros p s Hp.
    eexists. split.
    { apply map2_nth; rewrite !nth_error_map, Hp; reflexivity. }
    destruct (forallb is_nan s); [reflexivity |].
    eexists. split; [reflexivity |].
    destruct (Hrow s (nth_error_In _ _ Hp)). now apply argmin_spec.
Qed.

(* ================================================================== *)
(** * Further properties of the module *)

(** ** Zero-filling *)

Lemma map2_map_l {A B C} (f : B -> A -> C) (g : A -> B) l :
  map2 f (map g l) l = map (fun a => f (g a) a) l.
Proof. induction l as [| a l IH]; simpl; congruence. Qed.

Lemma pixels_zero_fill da :
  pixels (zero_fill da)
  = map (fun s => if forallb is_nan s then map (fun _ => Fin 0) s else s)
        (pixels da).
Proof. unfold zero_fill; simpl. apply map2_map_l. Qed.

Lemma zeros_not_all_nan {A} (s : list A) :
  s <> [] -> forallb is_nan (map (fun _ => Fin 0) s) = false.
Proof. destruct s; [contradiction | reflexivity]. Qed.

(** Zero-filling keeps the time axis, the number of pixels and the
    length of every series, and leaves no pixel with a non-empty series
    that is all NaN. *)
Theorem zero_fill_leaves_no_all_nan_pixel da :
  time (zero_fill da) = time da
  /\ length (pixels (zero_fill da)) = length (pixels da)
  /\ (well_formed da -> well_formed (zero_fill da))
  /\ (forall p s,
        nth_error (pixels (zero_fill da)) p = Some s -> s <> [] ->
        forallb is_nan s = false).
Proof.
  split; [reflexivity |].
  rewrite pixels_zero_fill.
  split; [apply length_map |].
  split.
  - unfold well_formed. rewrite pixels_zero_fill.
    intros H. apply Forall_map. simpl.
    eapply Forall_impl; [| exact H]. intros s Hs. simpl in Hs.
    destruct (forallb is_nan s); [now rewrite length_map | exact Hs].
  - intros p s Hp Hne.
    apply nth_error_map_Some in Hp. destruct Hp as (s0 & _ & ->).
    destruct (forallb is_nan s0) eqn:E; [| exact E].
    apply zeros_not_all_nan. intros ->. now apply Hne.
Qed.

Lemma zero_fill_idempotent da : zero_fill (zero_fill da) = zero_fill da.
Proof.
  assert (pixels (zero_fill (zero_fill da)) = pixels (zero_fill da)) as H.
  { rewrite (pixels_zero_fill (zero_fill da)), pixels_zero_fill, map_map.
    apply map_ext. intros s.
    destruct (forallb is_nan s) eqn:E; [| now rewrite E].
    destruct s as [| x s]; reflexivity. }
  unfold zero_fill at 1. fold (zero_fill da) in H.
  unfold zero_fill in H at 1. simpl in H. simpl. now rewrite H.
Qed.

(** Filling the all-NaN pixels of an in-memory array with zeros before
    the call changes nothing of what [xr_phenology] does. *)
Theorem xr_phenology_of_zero_filled v da stats method_sos method_eos :
  is_dask da = false ->
  xr_phenology v (zero_fill da) stats method_sos method_eos
  = xr_phenology v da stats method_sos method_eos.
Proof.
  intros Hd. unfold xr_phenology.
  assert (is_dask (zero_fill da) = false) as -> by exact Hd.
  rewrite Hd, zero_fill_idempotent. reflexivity.
Qed.

Lemma xr_phenology_of_zero_filled_witness :
  xr_phenology xr_0_16 (zero_fill da_unobserved) default_stats "first" "last"
  = xr_phenology xr_0_16 da_unobserved default_stats "first" "last".
Proof.
  apply xr_phenology_of_zero_filled. reflexivity.
Defined.

(** ** Requests that cannot be served *)

Lemma stats_dict_keys da method_sos method_eos d :
  stats_dict da method_sos method_eos = Ok d ->
  map fst d = ["SOS"; "EOS"; "vSOS"; "vPOS"; "Trough"; "POS"; "vEOS";
               "LOS"; "AOS"; "ROG"; "ROS"].
Proof.
  intros H. destruct (stats_dict_inv _ _ _ _ H)
    as (? & ? & ? & ? & ? & ? & ? & ? & _ & _ & _ & _ & _ & _ & _ & _ & ->).
  reflexivity.
Qed.

Lemma lookup_None_keys {A} k (d : list (string * A)) :
  lookup k d = None <-> mem k (map fst d) = false.
Proof.
  induction d as [| [k' v] d IH]; simpl; [tauto |].
  destruct (String.eqb k k'); simpl; [split; discriminate | exact IH].
Qed.


Lemma known_in_dict da method_sos method_eos d s :
  stats_dict da method_sos method_eos = Ok d ->
  mem s (map fst d) = mem s default_stats.
Proof.
  intros H. rewrite (stats_dict_keys _ _ _ _ H).
  unfold mem, default_stats. simpl.
  destruct (String.eqb s "SOS"), (String.eqb s "EOS"), (String.eqb s "vSOS"),
    (String.eqb s "vPOS"), (String.eqb s "Trough"), (String.eqb s "POS"),
    (String.eqb s "vEOS"), (String.eqb s "LOS"), (String.eqb s "AOS"),
    (String.eqb s "ROG"), (String.eqb s "ROS"); reflexivity.
Qed.

Lemma find_ext_eq {A} (f g : A -> bool) l :
  (forall a, f a = g a) -> find f l = find g l.
Proof.
  intros H. induction l as [| a l IH]; simpl; [reflexivity |].
  rewrite H, IH. reflexivity.
Qed.

Lemma getitem_known {A} (d : list (string * A)) s :
  mem s (map fst d) = true -> exists v, getitem d s = Ok v.
Proof.
  intros H. unfold getitem. destruct (lookup s d) eqn:E; [eauto |].
  apply lookup_None_keys in E. congruence.
Qed.

Lemma getitem_unknown {A} (d : list (string * A)) s :
  mem s (map fst d) = false -> getitem d s = Raise (KeyError s).
Proof.
  intros H. unfold getitem. apply lookup_None_keys in H. now rewrite H.
Qed.

Lemma add_stats_unknown d k : forall stats ds0,
  find (fun s => negb (mem s (map fst d))) stats = Some k ->
  add_stats d ds0 stats = Raise (KeyError k).
Proof.
  induction stats as [| s stats IH]; simpl; intros ds0 H; [discriminate |].
  destruct (mem s (map fst d)) eqn:E; simpl in H.
  - destruct (getitem_known d s E) as [v ->]. simpl. now apply IH.
  - injection H as <-. now rewrite getitem_unknown.
Qed.

(** When the request of an in-memory run names something that is not
    one of the eleven statistics, the call raises [KeyError] for the first
    such name, after all the statistics were computed. *)
Theorem unknown_statistic_raises_KeyError v da stats method_sos method_eos
    d k :
  is_dask da = false ->
  mem method_sos ["median"; "first"] = true ->
  mem method_eos ["median"; "last"] = true ->
  stats_dict (zero_fill da) method_sos method_eos = Ok d ->
  first_unknown stats = Some k ->
  xr_phenology v da stats method_sos method_eos = Raise (KeyError k).
Proof.
  intros Hd Hs He Hdict Hk.
  rewrite (xr_phenology_in_memory _ _ _ _ _ _ Hd Hs He Hdict).
  assert (find (fun s => negb (mem s (map fst d))) stats = Some k) as Hk'.
  { unfold first_unknown in Hk. rewrite <- Hk. apply find_ext_eq.
    intros s. now rewrite (known_in_dict _ _ _ _ s Hdict). }
  unfold assemble. destruct stats as [| s stats]; [discriminate |].
  rewrite index_head. simpl in Hk'. cbn [bind tl].
  destruct (mem s (map fst d)) eqn:E; simpl in Hk'.
  - destruct (getitem_known d s E) as [x ->]. cbn [bind].
    now rewrite (add_stats_unknown _ _ _ _ Hk').
  - injection Hk' as <-. now rewrite getitem_unknown.
Qed.

Lemma unknown_statistic_raises_KeyError_witness :
  xr_phenology xr_0_16 da_spec ["POS"; "Peak"; "AOS"; "Start"] "first" "last"
  = Raise (KeyError "Peak").
Proof.
  eapply (unknown_statistic_raises_KeyError xr_0_16 da_spec);
    vm_compute; reflexivity.
Defined.

(** An in-memory run with an empty request raises [IndexError], once
    all the statistics were computed. *)
Theorem empty_request_raises_IndexError v da method_sos method_eos d :
  is_dask da = false ->
  mem method_sos ["median"; "first"] = true ->
  mem method_eos ["median"; "last"] = true ->
  stats_dict (zero_fill da) method_sos method_eos = Ok d ->
  xr_phenology v da [] method_sos method_eos = Raise IndexError.
Proof.
  intros Hd Hs He Hdict.
  now rewrite (xr_phenology_in_memory _ _ _ _ _ _ Hd Hs He Hdict).
Qed.

Lemma empty_request_raises_IndexError_witness :
  xr_phenology xr_0_16 da_spec [] "first" "last" = Raise IndexError.
Proof.
  eapply (empty_request_raises_IndexError xr_0_16 da_spec);
    vm_compute; reflexivity.
Defined.

(** ** A series with one timestamp *)

Lemma mapM_head_raises {A B} (f : A -> result B) a l e :
  f a = Raise e -> mapM f (a :: l) = Raise e.
Proof. intros H. simpl. now rewrite H. Qed.

Lemma nanargmax_single x :
  is_nan x = false -> nanargmax [x] = Ok 0%nat.
Proof. intros H. unfold nanargmax. simpl. now rewrite H. Qed.

(** With one timestamp the coordinate has no difference to take: the
    gradient raises on [diffx[0]]. *)
Lemma differentiate_single t s :
  length s = 1%nat -> differentiate [t] s = Raise IndexError.
Proof.
  intros H. destruct s as [| x [| y s]]; try discriminate H. reflexivity.
Qed.

(** An in-memory array with a single timestamp and at least one pixel
    cannot be processed: the slope of the greening side does not exist and
    the call raises [IndexError], whatever was requested. *)
Theorem single_timestamp_raises_IndexError v t px stats method_sos
    method_eos :
  px <> [] ->
  well_formed (mkDataArray [t] px false) ->
  mem method_sos ["median"; "first"] = true ->
  mem method_eos ["median"; "last"] = true ->
  xr_phenology v (mkDataArray [t] px false) stats method_sos method_eos
  = Raise IndexError.
Proof.
  intros Hne Hwf Hs He.
  unfold xr_phenology. cbn [is_dask]. rewrite Hs, He. cbn [negb].
  assert (pixels (zero_fill (mkDataArray [t] px false))
          = map (fun s => if forallb is_nan s
                          then map (fun _ => Fin 0) s else s) px) as Hpx.
  { apply (pixels_zero_fill (mkDataArray [t] px false)). }
  assert (time (zero_fill (mkDataArray [t] px false)) = [t]) as Htime
    by reflexivity.
  remember (zero_fill (mkDataArray [t] px false)) as da eqn:Eda. clear Eda.
  assert (Forall (fun s => length s = 1%nat /\ forallb is_nan s = false)
                 (pixels da)) as Hrows.
  { rewrite Hpx. apply Forall_map. unfold well_formed in Hwf.
    simpl in Hwf. eapply Forall_impl; [| exact Hwf].
    intros s Hlen. simpl in Hlen.
    destruct s as [| x [| y s]]; try discriminate Hlen.
    simpl. destruct (is_nan x) eqn:E; simpl; [split; reflexivity |].
    now rewrite E. }
  assert (mapM nanargmax (pixels da)
          = Ok (map (fun _ => 0%nat) (pixels da))) as Hidx.
  { apply mapM_map. intros s Hin. rewrite Forall_forall in Hrows.
    destruct (Hrows s Hin) as [Hlen Hnan].
    destruct s as [| x [| y s]]; try discriminate Hlen.
    apply nanargmax_single. simpl in Hnan.
    now rewrite andb_true_r in Hnan. }
  unfold stats_dict, _vpos, _pos, _trough. rewrite Htime, Hidx. cbn [bind].
  rewrite (mapM_map _ (fun _ => t)).
  2:{ intros a Ha. apply in_map_iff in Ha. destruct Ha as (? & <- & _).
      reflexivity. }
  cbn [bind]. unfold _vsos, time_of. cbn [tcoord bind].
  rewrite Htime, !map_map.
  destruct (pixels da) as [| s rest] eqn:E.
  { rewrite Hpx in E. destruct px; [contradiction | discriminate]. }
  apply Forall_inv in Hrows. destruct Hrows as [Hlen _].
  cbn [map combine].
  rewrite (mapM_head_raises _ _ _ IndexError); [reflexivity |].
  cbn [fst snd]. unfold pos_greenup.
  rewrite differentiate_single; [reflexivity |].
  destruct s as [| x [| y s]]; try discriminate Hlen. reflexivity.
Qed.

Lemma single_timestamp_raises_IndexError_witness :
  xr_phenology xr_0_16
    (mkDataArray [date 2021 1 1] [[Fin (3#10)]; [NaN]] false)
    ["vPOS"; "POS"] "first" "last"
  = Raise IndexError.
Proof.
  apply single_timestamp_raises_IndexError.
  - discriminate.
  - repeat constructor.
  - reflexivity.
  - reflexivity.
Defined.

(** ** Reported positions *)

Lemma mapM_Forall {A B} (f : A -> result B) (P : B -> Prop) l m :
  mapM f l = Ok m ->
  (forall a b, In a l -> f a = Ok b -> P b) ->
  Forall P m.
Proof.
  revert m. induction l as [| a l IH]; simpl; intros m H HP.
  - injection H as <-. constructor.
  - inv_bind. subst m. constructor; [eapply HP; eauto |].
    apply IH; [exact Ha0 |]. intros; eapply HP; eauto.
Qed.

Lemma isel_tcoord ts g idx a :
  isel ts g idx = Ok a ->
  exists tc, tcoord a = Some tc /\ Forall (fun t => In t ts) tc.
Proof.
  unfold isel. intros H. inv_bind. subst a. cbn [tcoord].
  eexists. split; [reflexivity |].
  eapply mapM_Forall; [eassumption |].
  intros i t _ Hi. eapply index_In; eassumption.
Qed.

Lemma _veos_inv da pos method_eos veos :
  _veos da pos method_eos = Ok veos ->
  exists ns idx, isel (time da) ns idx = Ok veos.
Proof.
  unfold _veos, time_of, astype_int16. intros H.
  destruct (tcoord pos) as [peaks |]; [| discriminate].
  cbn [bind] in H. inv_bind.
  destruct a1 as [idx |]; [| discriminate].
  eauto.
Qed.

Lemma days_of_year_cells (tc : list Z) (ts : list Z) :
  Forall (fun t => In t ts) tc ->
  Forall (fun z => 1 <= z <= 366 /\ exists t, In t ts /\ z = dayofyear t)
         (map to_int16 (map dayofyear tc)).
Proof.
  intros H. rewrite map_map. apply Forall_map.
  eapply Forall_impl; [| exact H]. intros t Ht. simpl.
  rewrite to_int16_dayofyear. split; [apply dayofyear_range |].
  exists t. split; [exact Ht | reflexivity].
Qed.

(** In every in-memory run that returns, each cell of SOS, POS and EOS is
    the day of the year of one of the timestamps of the input, a number
    from 1 to 366: also at a pixel where no start or end of season was
    found. *)
Theorem positions_are_days_of_year v da stats method_sos method_eos ds
    name c :
  xr_phenology v da stats method_sos method_eos = Ok (Computed ds) ->
  In name ["SOS"; "POS"; "EOS"] ->
  lookup name (data_vars ds) = Some c ->
  exists l,
    c = Ints l
    /\ Forall (fun z => 1 <= z <= 366
                        /\ exists t, In t (time da) /\ z = dayofyear t) l.
Proof.
  intros Hrun Hin Hc.
  destruct (xr_phenology_Computed _ _ _ _ _ _ Hrun)
    as (_ & _ & _ & d & Hdict & Has).
  destruct (assemble_spec _ _ _ Has) as (T & _ & _ & _).
  destruct (stats_dict_inv _ _ _ _ Hdict)
    as (vpos & pos & trough & vsos & sos & veos & eos & los
        & _ & Hpos & _ & Hvsos & Hsos & Hveos & Heos & _ & ->).
  assert (time (zero_fill da) = time da) as Htime by reflexivity.
  remember (zero_fill da) as da' eqn:Eda. clear Eda.
  destruct (T _ _ Hc) as (x & Dx & <-).
  destruct Hin as [<- | [<- | [<- | []]]]; simpl in Dx;
    injection Dx as <-; cbn [astype_int16_of_int values];
    (eexists; split; [reflexivity |]); rewrite <- Htime.
  - destruct (_vsos_inv _ _ _ _ Hvsos) as (peaks & pg & G & y & _ & _ & _ & _ & Hsel).
    destruct (isel_tcoord _ _ _ _ Hsel) as (tc & Htc & Hall).
    unfold _sos, time_of in Hsos. rewrite Htc in Hsos.
    cbn [bind] in Hsos. apply Ok_inj in Hsos. subst sos. cbn [data].
    now apply days_of_year_cells.
  - unfold _pos in Hpos. inv_bind. subst pos. cbn [data].
    apply days_of_year_cells.
    eapply mapM_Forall; [eassumption |].
    intros i t _ Hi. exact (index_In _ _ _ Hi).
  - destruct (_veos_inv _ _ _ _ Hveos) as (ns & idx & Hsel).
    destruct (isel_tcoord _ _ _ _ Hsel) as (tc & Htc & Hall).
    unfold _eos, time_of in Heos. rewrite Htc in Heos.
    cbn [bind] in Heos. apply Ok_inj in Heos. subst eos. cbn [data].
    now apply days_of_year_cells.
Qed.

Lemma positions_are_days_of_year_witness :
  exists l,
    Ints [1; 1] = Ints l
    /\ Forall (fun z => 1 <= z <= 366
                        /\ exists t, In t (time da_falling)
                                     /\ z = dayofyear t) l.
Proof.
  apply (positions_are_days_of_year xr_0_16 da_falling ["vSOS"; "SOS"]
           "first" "last"
           (mkDataset [("vSOS", Floats [Fin (1#10); NaN]);
                       ("SOS", Ints [1; 1])] None) "SOS").
  - vm_compute. reflexivity.
  - simpl. auto.
  - reflexivity.
Defined.

(** ** Peak value and trough *)

Lemma fltb_false_trans x y z :
  is_nan x = false -> is_nan y = false -> is_nan z = false ->
  fltb x y = false -> fltb y z = false -> fltb x z = false.
Proof.
  intros Hx Hy Hz H1 H2.
  destruct (fltb x z) eqn:E; [| reflexivity].
  pose proof (fltb_between _ _ _ Hx Hy H1 E). congruence.
Qed.

Lemma max_step_above acc x :
  is_nan acc = false -> fltb (max_step acc x) acc = false.
Proof.
  intros H. unfold max_step. destruct (is_nan x); [apply fltb_irrefl |].
  rewrite H. destruct (fltb acc x) eqn:E; [| apply fltb_irrefl].
  now apply fltb_asym.
Qed.

Lemma min_step_below acc x :
  is_nan acc = false -> fltb acc (min_step acc x) = false.
Proof.
  intros H. unfold min_step. destruct (is_nan x); [apply fltb_irrefl |].
  rewrite H. destruct (fltb x acc) eqn:E; [| apply fltb_irrefl].
  now apply fltb_asym.
Qed.

Lemma fold_max_above_acc l : forall acc,
  is_nan acc = false -> fltb (fold_left max_step l acc) acc = false.
Proof.
  induction l as [| y l IH]; simpl; intros acc H; [apply fltb_irrefl |].
  pose proof (max_step_valid acc y H) as H'.
  apply (fltb_false_trans _ (max_step acc y)); auto.
  - apply fold_max_valid. now left.
  - now apply max_step_above.
Qed.

Lemma fold_min_below_acc l : forall acc,
  is_nan acc = false -> fltb acc (fold_left min_step l acc) = false.
Proof.
  induction l as [| y l IH]; simpl; intros acc H; [apply fltb_irrefl |].
  pose proof (min_step_valid acc y H) as H'.
  apply (fltb_false_trans _ (min_step acc y)); auto.
  - apply fold_min_valid. now left.
  - now apply min_step_below.
Qed.

(** [nanmax] is not below any cell of the series that is not NaN. *)
Lemma fold_max_above l : forall acc x,
  In x l -> is_nan x = false -> fltb (fold_left max_step l acc) x = false.
Proof.
  induction l as [| y l IH]; intros acc x Hin Hn; [destruct Hin |].
  simpl. destruct Hin as [<- | Hx].
  - assert (is_nan (max_step acc y) = false /\ fltb (max_step acc y) y = false)
      as [V B].
    { unfold max_step. rewrite Hn. destruct (is_nan acc) eqn:E.
      - split; [exact Hn | apply fltb_irrefl].
      - destruct (fltb acc y) eqn:F.
        + split; [exact Hn | apply fltb_irrefl].
        + split; [exact E | exact F]. }
    apply (fltb_false_trans _ (max_step acc y)); auto.
    + apply fold_max_valid. now left.
    + now apply fold_max_above_acc.
  - now apply IH.
Qed.

Lemma fold_min_below l : forall acc x,
  In x l -> is_nan x = false -> fltb x (fold_left min_step l acc) = false.
Proof.
  induction l as [| y l IH]; intros acc x Hin Hn; [destruct Hin |].
  simpl. destruct Hin as [<- | Hx].
  - assert (is_nan (min_step acc y) = false /\ fltb y (min_step acc y) = false)
      as [V B].
    { unfold min_step. rewrite Hn. destruct (is_nan acc) eqn:E.
      - split; [exact Hn | apply fltb_irrefl].
      - destruct (fltb y acc) eqn:F.
        + split; [exact Hn | apply fltb_irrefl].
        + split; [exact E | exact F]. }
    apply (fltb_false_trans _ (min_step acc y)); auto.
    + apply fold_min_valid. now left.
    + now apply fold_min_below_acc.
  - now apply IH.
Qed.

Lemma not_all_nan_cell l :
  forallb is_nan l = false -> exists x, In x l /\ is_nan x = false.
Proof.
  induction l as [| y l IH]; simpl; [discriminate |].
  destruct (is_nan y) eqn:E; simpl; intros H; eauto.
  destruct (IH H) as (x & Hx & Hn). eauto.
Qed.

(** In every in-memory run on a well-formed array that returns, vPOS and
    Trough hold a number at every pixel, also at one that was never
    observed, and vPOS is not below Trough. *)
Theorem trough_not_above_peak_value v da stats method_sos method_eos ds
    lp lt p x y :
  well_formed da ->
  xr_phenology v da stats method_sos method_eos = Ok (Computed ds) ->
  lookup "vPOS" (data_vars ds) = Some (Floats lp) ->
  lookup "Trough" (data_vars ds) = Some (Floats lt) ->
  nth_error lp p = Some x -> nth_error lt p = Some y ->
  is_nan x = false /\ is_nan y = false /\ fltb x y = false.
Proof.
  intros Hwf Hrun Hlp Hlt Hx Hy.
  destruct (xr_phenology_Computed _ _ _ _ _ _ Hrun)
    as (_ & _ & _ & d & Hdict & Has).
  destruct (assemble_spec _ _ _ Has) as (T & _ & _ & _).
  destruct (stats_dict_inv _ _ _ _ Hdict)
    as (vpos & pos & trough & vsos & sos & veos & eos & los
        & Hvpos & _ & Htrough & _ & _ & _ & _ & _ & ->).
  destruct (zero_fill_leaves_no_all_nan_pixel da) as (Htime & _ & Hwf' & Hz).
  specialize (Hwf' Hwf).
  remember (zero_fill da) as da' eqn:Eda. clear Eda.
  destruct (T _ _ Hlp) as (sp & Dp & Ep).
  destruct (T _ _ Hlt) as (st & Dt & Et).
  simpl in Dp, Dt. injection Dp as <-. injection Dt as <-.
  unfold _vpos in Hvpos. unfold _trough in Htrough.
  destruct (time da') as [| t0 ts] eqn:Et0; [discriminate |].
  injection Hvpos as <-. injection Htrough as <-.
  cbn [astype_float32 values data] in Ep, Et.
  injection Ep as <-. injection Et as <-.
  apply nth_error_map_Some in Hx. destruct Hx as (s & Hs & ->).
  rewrite nth_error_map, Hs in Hy. injection Hy as <-.
  assert (s <> []) as Hne.
  { unfold well_formed in Hwf'. rewrite Forall_forall in Hwf'.
    specialize (Hwf' s (nth_error_In _ _ Hs)). rewrite Et0 in Hwf'.
    destruct s; discriminate. }
  destruct (not_all_nan_cell s (Hz _ _ Hs Hne)) as (z & Hin & Hzn).
  assert (is_nan (nanmax s) = false) as Vx
    by (apply fold_max_valid; eauto).
  assert (is_nan (nanmin s) = false) as Vy
    by (apply fold_min_valid; eauto).
  split; [exact Vx |]. split; [exact Vy |].
  apply (fltb_false_trans _ z); auto.
  - now apply fold_max_above.
  - now apply fold_min_below.
Qed.

Lemma trough_not_above_peak_value_witness :
  is_nan (Fin 0) = false /\ is_nan (Fin 0) = false
  /\ fltb (Fin 0) (Fin 0) = false.
Proof.
  apply (trough_not_above_peak_value xr_0_16 da_unobserved
           ["vPOS"; "Trough"; "POS"] "first" "last"
           (mkDataset [("vPOS", Floats [Fin (9#10); Fin 0]);
                       ("Trough", Floats [Fin (1#10); Fin 0]);
                       ("POS", Ints [91; 1])] None)
           [Fin (9#10); Fin 0] [Fin (1#10); Fin 0] 1%nat).
  - repeat constructor.
  - vm_compute. reflexivity.
  - reflexivity.
  - reflexivity.
  - reflexivity.
  - reflexivity.
Defined.

(** ** The season length that is reported *)

Lemma same_cell_eq x y : same_cell x y = true -> x = y.
Proof.
  destruct x as [a | a | | s m e], y as [b | b | | s' m' e']; simpl;
    try discriminate; intros H.
  - apply eqb_prop in H. congruence.
  - apply eqb_prop in H. congruence.
  - reflexivity.
  - apply andb_true_iff in H. destruct H as [H He].
    apply andb_true_iff in H. destruct H as [Hs Hm].
    apply eqb_prop in Hs. apply Pos.eqb_eq in Hm. apply Z.eqb_eq in He.
    congruence.
Qed.

Lemma days_sub_checked : holds_from days_sub_exact 366 1 = true.
Proof. vm_compute. reflexivity. Qed.

Lemma days_add_checked : holds_from days_add_exact 366 1 = true.
Proof. vm_compute. reflexivity. Qed.

Lemma days_cast_checked : holds_from days_cast_exact 731 (-365) = true.
Proof. vm_compute. reflexivity. Qed.

Lemma fsub_days a b :
  1 <= a <= 366 -> 1 <= b <= 366 ->
  fsub (of_Z a) (of_Z b) = of_Z (a - b).
Proof.
  intros Ha Hb. apply same_cell_eq.
  pose proof (holds_from_spec _ _ _ a days_sub_checked ltac:(simpl; lia))
    as H.
  exact (holds_from_spec _ _ _ b H ltac:(simpl; lia)).
Qed.

Lemma fadd_days a d :
  1 <= a <= 366 -> -365 <= d <= -1 ->
  fadd (of_Z a) (of_Z d) = of_Z (a + d).
Proof.
  intros Ha Hd. apply same_cell_eq.
  pose proof (holds_from_spec _ _ _ a days_add_checked ltac:(simpl; lia))
    as H.
  exact (holds_from_spec _ _ _ d H ltac:(simpl; lia)).
Qed.

Lemma float_to_int16_days z :
  -365 <= z <= 365 -> float_to_int16 (of_Z z) = z.
Proof.
  intros Hz. apply Z.eqb_eq.
  exact (holds_from_spec _ _ _ z days_cast_checked ltac:(simpl; lia)).
Qed.

(** What [_los] holds at a pixel whose end and start are days of the
    year. *)
Lemma _los_nth da eos sos los p e s :
  _los da eos sos = Ok los ->
  nth_error (data eos) p = Some e -> 1 <= e <= 366 ->
  nth_error (data sos) p = Some s -> 1 <= s <= 366 ->
  exists last_doy,
    index (map dayofyear (time da)) (-1) = Ok last_doy
    /\ nth_error (data los) p = Some (of_Z (wrapped_length last_doy e s)).
Proof.
  unfold _los. intros H He Re Hs Rs. inv_bind. subst los.
  exists a. split; [exact Ha |].
  assert (1 <= a <= 366) as Ra.
  { apply index_In in Ha. apply in_map_iff in Ha.
    destruct Ha as (t & <- & _). apply dayofyear_range. }
  unfold xr_where, where_int, map_arr, binop; cbn [data tcoord].
  pose proof (map2_nth Z.sub _ _ _ _ _ He Hs) as Hl.
  erewrite map2_nth; cycle 1.
  - rewrite nth_error_map, Hl. reflexivity.
  - apply combine_nth_error; [exact Hl |].
    rewrite nth_error_map.
    erewrite map2_nth; cycle 1.
    + eapply map2_nth; [| exact He].
      rewrite nth_error_map, Hl. reflexivity.
    + eapply map2_nth; [| exact Hs].
      rewrite nth_error_map, Hl. reflexivity.
    + reflexivity.
  - cbn [fst snd]. unfold wrapped_length.
    destruct (Z.leb_spec 0 (e - s)); destruct (Z.leb_spec s e); try lia.
    + reflexivity.
    + destruct (Z.ltb_spec (e - s) 0); [| lia].
      unfold where_. rewrite fsub_days, fadd_days by lia. reflexivity.
Qed.

(** The cells of a position statistic are days of the year. *)
Lemma position_cells (t : list Z) p e :
  nth_error (map to_int16 (map dayofyear t)) p = Some e ->
  nth_error (map dayofyear t) p = Some e /\ 1 <= e <= 366.
Proof.
  intros H. apply nth_error_map_Some in H. destruct H as (x & Hx & ->).
  pose proof Hx as Hx'.
  apply nth_error_map_Some in Hx'. destruct Hx' as (t0 & _ & ->).
  rewrite to_int16_dayofyear. split; [exact Hx | apply dayofyear_range].
Qed.

(** In every in-memory run that returns, the season length reported at a
    pixel is [EOS - SOS] when that is not negative, and otherwise the day
    of the year of the last timestamp plus [EOS - SOS]: the float
    arithmetic of the second case and the cast to [int16] lose nothing. *)
Theorem season_length_rule v da stats method_sos method_eos
    ds ll le ls p l e s last_doy :
  xr_phenology v da stats method_sos method_eos = Ok (Computed ds) ->
  lookup "LOS" (data_vars ds) = Some (Ints ll) ->
  lookup "EOS" (data_vars ds) = Some (Ints le) ->
  lookup "SOS" (data_vars ds) = Some (Ints ls) ->
  nth_error ll p = Some l ->
  nth_error le p = Some e ->
  nth_error ls p = Some s ->
  index (map dayofyear (time da)) (-1) = Ok last_doy ->
  l = if s <=? e then e - s else last_doy + (e - s).
Proof.
  intros Hrun HL HE HS Hl He Hs Hlast.
  destruct (xr_phenology_Computed _ _ _ _ _ _ Hrun)
    as (_ & _ & _ & d & Hdict & Has).
  destruct (assemble_spec _ _ _ Has) as (T & _ & _ & _).
  destruct (stats_dict_inv _ _ _ _ Hdict)
    as (vpos & pos & trough & vsos & sos & veos & eos & los
        & _ & _ & _ & _ & Hsos & _ & Heos & Hlos & ->).
  destruct (T _ _ HL) as (xl & Dl & Vl).
  destruct (T _ _ HE) as (xe & De & Ve).
  destruct (T _ _ HS) as (xs & Ds & Vs).
  simpl in Dl, De, Ds.
  injection Dl as <-. injection De as <-. injection Ds as <-.
  cbn [astype_int16_of_int astype_int16_of_float values] in Vl, Ve, Vs.
  injection Vl as <-. injection Ve as <-. injection Vs as <-.
  unfold _sos in Hsos. unfold _eos in Heos. inv_bind. subst sos eos.
  cbn [data] in He, Hs.
  apply position_cells in He. destruct He as [He Re].
  apply position_cells in Hs. destruct Hs as [Hs Rs].
  destruct (_los_nth _ _ _ _ p e s Hlos He Re Hs Rs) as (last' & Hl' & Hcell).
  assert (time (zero_fill da) = time da) as Htime by reflexivity.
  rewrite Htime, Hlast in Hl'. injection Hl' as <-.
  apply nth_error_map_Some in Hl. destruct Hl as (x & Hx & ->).
  rewrite Hcell in Hx. injection Hx as <-.
  assert (1 <= last_doy <= 366) as Rl.
  { apply index_In in Hlast. apply in_map_iff in Hlast.
    destruct Hlast as (t & <- & _). apply dayofyear_range. }
  fold (wrapped_length last_doy e s).
  apply float_to_int16_days.
  unfold wrapped_length. destruct (Z.leb_spec s e); lia.
Qed.

Lemma season_length_rule_witness :
  -119 = if 183 <=? 32 then 32 - 183 else 32 + (32 - 183).
Proof.
  apply (season_length_rule xr_0_16 da_new_year ["SOS"; "EOS"; "LOS"]
           "first" "last"
           (mkDataset [("SOS", Ints [183]); ("EOS", Ints [32]);
                       ("LOS", Ints [-119])] None)
           [-119] [32] [183] 0%nat).
  - vm_compute. reflexivity.
  - reflexivity.
  - reflexivity.
  - reflexivity.
  - reflexivity.
  - reflexivity.
  - reflexivity.
  - vm_compute. reflexivity.
Defined.

(** ** [temporal_statistics] *)

Lemma names_setitem ds k x :
  names (setitem ds k x) = add_name k (names ds).
Proof.
  unfold names, setitem; cbn [data_vars].
  induction (data_vars ds) as [| [k' v'] d IH]; simpl; [reflexivity |].
  destruct (String.eqb k k'); simpl; [reflexivity | now rewrite IH].
Qed.

Lemma names_set_three ds k n1 n2 n3 :
  names (set_three ds k n1 n2 n3)
  = add_name (k ++ "_n3") (add_name (k ++ "_n2") (add_name (k ++ "_n1")
                                                           (names ds))).
Proof. unfold set_three. now rewrite !names_setitem. Qed.

Lemma In_add_name k n ns : In n (add_name k ns) <-> n = k \/ In n ns.
Proof.
  induction ns as [| k' ns IH]; simpl; [intuition |].
  destruct (String.eqb_spec k k') as [-> | Hne]; simpl; intuition.
Qed.

(** The names that the loop over the template leaves are the names that
    the loop over the statistics leaves. *)
Lemma other_stats_names hd da zeros : forall stats ds template ds',
  other_stats hd da ds stats = Ok ds' ->
  names template = names ds ->
  names (template_stats zeros template stats) = names ds'.
Proof.
  induction stats as [| stat rest IH]; simpl; intros ds template ds' H Hn.
  - injection H as <-. exact Hn.
  - destruct (is_fourier stat).
    + inv_bind. destruct a0 as [[n1 n2] n3].
      eapply IH; [eassumption |].
      now rewrite !names_set_three, Hn.
    + inv_bind. eapply IH; [eassumption |].
      now rewrite !names_setitem, Hn.
Qed.

Lemma add_name_head k ns : add_name k (k :: ns) = k :: ns.
Proof. simpl. now rewrite String.eqb_refl. Qed.

(** The template that the dask branch hands to [map_blocks] names the
    variables that the in-memory call returns on the same array, in the
    same order. *)
Theorem template_names_match_eager hd v ts px stats ds lazy :
  temporal_statistics hd v (mkDataArray ts px false) stats
  = Ok (StatsComputed ds) ->
  temporal_statistics hd v (mkDataArray ts px true) stats
  = Ok (StatsScheduled lazy) ->
  names (stats_template lazy) = names ds.
Proof.
  unfold temporal_statistics. cbn [is_dask time pixels].
  intros He Hl.
  destruct (version_ltb v (0, 16, 0)%nat); [discriminate |].
  destruct stats as [| first rest]; [inv_bind; discriminate |].
  rewrite index_head in He, Hl. cbn [bind tl] in He, Hl.
  inv_bind. subst lazy a1. cbn [stats_template].
  unfold first_stat in Ha0.
  destruct (is_fourier first) eqn:F.
  - inv_bind. destruct a2 as [[n1 n2] n3]. injection Ha0 as <-.
    eapply other_stats_names; [eassumption |].
    now rewrite !names_setitem.
  - inv_bind. subst a0.
    eapply other_stats_names; [eassumption |].
    rewrite names_setitem. unfold names, to_dataset; cbn [data_vars map fst].
    apply add_name_head.
Qed.

Lemma template_names_match_eager_witness :
  exists ds lazy,
    temporal_statistics hd_zeros xr_0_16
      (mkDataArray months_2021 [spec_series; falling_series] false)
      ["complexity"; "f_mean"; "complexity"] = Ok (StatsComputed ds)
    /\ temporal_statistics hd_zeros xr_0_16
         (mkDataArray months_2021 [spec_series; falling_series] true)
         ["complexity"; "f_mean"; "complexity"] = Ok (StatsScheduled lazy)
    /\ names (stats_template lazy) = names ds.
Proof.
  do 2 eexists.
  split; [vm_compute; reflexivity |].
  split; [vm_compute; reflexivity |].
  apply (template_names_match_eager hd_zeros xr_0_16 months_2021
           [spec_series; falling_series]
           ["complexity"; "f_mean"; "complexity"]);
    vm_compute; reflexivity.
Defined.

Lemma other_stats_In hd da n : forall stats ds ds',
  other_stats hd da ds stats = Ok ds' ->
  (In n (names ds')
   <-> In n (names ds)
       \/ exists stat, In stat stats /\ In n (layer_names stat)).
Proof.
  induction stats as [| stat rest IH]; simpl; intros ds ds' H.
  - injection H as <-. split; [auto | intros [H | (s & [] & _)]; exact H].
  - unfold layer_names at 1.
    destruct (is_fourier stat) eqn:F.
    + inv_bind. destruct a0 as [[n1 n2] n3].
      rewrite (IH _ _ H), names_set_three, !In_add_name.
      split.
      * intros [[-> | [-> | [-> | Hn]]] | (s & Hs & Hn)]; eauto.
        -- right. exists stat. unfold layer_names. rewrite F. simpl. auto.
        -- right. exists stat. unfold layer_names. rewrite F. simpl. auto.
        -- right. exists stat. unfold layer_names. rewrite F. simpl. auto.
      * intros [Hn | (s & [<- | Hs] & Hn)]; eauto 6.
        unfold layer_names in Hn. rewrite F in Hn. simpl in Hn.
        intuition.
    + inv_bind.
      rewrite (IH _ _ H), names_setitem, In_add_name.
      split.
      * intros [[-> | Hn] | (s & Hs & Hn)]; eauto.
        right. exists stat. unfold layer_names. rewrite F. simpl. auto.
      * intros [Hn | (s & [<- | Hs] & Hn)]; eauto 6.
        unfold layer_names in Hn. rewrite F in Hn. simpl in Hn.
        intuition.
Qed.

(** The dataset that an in-memory call returns holds the layers of the
    requested statistics and nothing else: one layer under the name of
    the statistic, or three under the name followed by [_n1], [_n2] and
    [_n3] for a Fourier statistic. *)
Theorem temporal_statistics_names hd v da stats ds :
  temporal_statistics hd v da stats = Ok (StatsComputed ds) ->
  forall n,
    In n (names ds)
    <-> exists stat, In stat stats /\ In n (layer_names stat).
Proof.
  unfold temporal_statistics. intros H n.
  destruct (is_dask da).
  { destruct (version_ltb v (0, 16, 0)%nat); [discriminate |].
    inv_bind. discriminate. }
  destruct stats as [| first rest]; [inv_bind; discriminate |].
  rewrite index_head in H. cbn [bind tl] in H. inv_bind. subst a0.
  rewrite (other_stats_In _ _ n _ _ _ Ha0).
  assert (In n (names a) <-> In n (layer_names first)) as ->.
  { unfold first_stat in Ha. unfold layer_names.
    destruct (is_fourier first).
    - inv_bind. destruct a1 as [[n1 n2] n3]. injection Ha as <-.
      rewrite !names_setitem, !In_add_name.
      unfold names, to_dataset. simpl. intuition.
    - inv_bind. subst a. unfold names, to_dataset. simpl. intuition. }
  split.
  - intros [Hn | (s & Hs & Hn)]; [exists first | exists s]; simpl; auto.
  - intros (s & [<- | Hs] & Hn); eauto.
Qed.

Lemma temporal_statistics_names_witness :
  In "f_std_n2"
     (names (mkDataset
               [("f_std_n1", Floats [Fin 0; Fin 0]);
                ("f_std_n2", Floats [Fin 0; Fin 0]);
                ("f_std_n3", Floats [Fin 0; Fin 0]);
                ("num_peaks", Floats [Fin 0; Fin 0])] None))
  <-> exists stat,
        In stat ["f_std"; "num_peaks"] /\ In "f_std_n2" (layer_names stat).
Proof.
  apply (temporal_statistics_names hd_zeros xr_0_16
           (mkDataArray months_2021 [spec_series; falling_series] false)
           ["f_std"; "num_peaks"]).
  vm_compute. reflexivity.
Defined.

Lemma call_stat_unknown hd stat da :
  mem stat hd_names = false ->
  call_stat hd stat da = Raise none_not_callable
  /\ is_fourier stat = false.
Proof.
  unfold call_stat, hd_stats_dict, is_fourier, mem, hd_names.
  cbn [existsb lookup]. intros H.
  repeat match type of H with
  | (String.eqb ?a ?b || _)%bool = false =>
      destruct (String.eqb a b); [discriminate H |]; cbn [orb] in H
  end.
  split; reflexivity.
Qed.

Lemma call_stat_known hd stat da :
  hd_returns hd ->
  mem stat hd_names = true ->
  if is_fourier stat
  then exists n1 n2 n3, call_stat hd stat da = Ok (Three n1 n2 n3)
  else exists l, call_stat hd stat da = Ok (One l).
Proof.
  intros Hr H. unfold mem, hd_names in H. apply existsb_exists in H.
  destruct H as (k & Hk & E). apply String.eqb_eq in E. subst k.
  destruct (Hr da) as (H1 & H2 & H3 & H4 & H5 & H6 & H7 & H8 & H9 & H10).
  unfold call_stat, hd_stats_dict, one_layer, three_layers.
  simpl in Hk.
  repeat (destruct Hk as [<- | Hk];
          [cbn [lookup String.eqb Ascii.eqb Bool.eqb is_fourier mem existsb
                orb] |]);
    try contradiction.
  - destruct H1 as [l ->]. simpl. eauto.
  - destruct H2 as [[[n1 n2] n3] ->]. simpl. eauto.
  - destruct H3 as [[[n1 n2] n3] ->]. simpl. eauto.
  - destruct H4 as [[[n1 n2] n3] ->]. simpl. eauto.
  - destruct H5 as [l ->]. simpl. eauto.
  - destruct H6 as [l ->]. simpl. eauto.
  - destruct H7 as [l ->]. simpl. eauto.
  - destruct H8 as [l ->]. simpl. eauto.
  - destruct H9 as [l ->]. simpl. eauto.
  - destruct H10 as [l ->]. simpl. eauto.
Qed.

Lemma other_stats_unknown hd da k :
  hd_returns hd ->
  forall stats ds,
    first_unknown_stat stats = Some k ->
    other_stats hd da ds stats = Raise none_not_callable.
Proof.
  intros Hr. unfold first_unknown_stat.
  induction stats as [| stat rest IH]; intros ds H; [discriminate |].
  cbn [find] in H. cbn [other_stats].
  destruct (mem stat hd_names) eqn:E; cbn [negb] in H.
  - pose proof (call_stat_known hd stat da Hr E) as C.
    destruct (is_fourier stat).
    + destruct C as (n1 & n2 & n3 & ->). simpl. now apply IH.
    + destruct C as (l & ->). simpl. now apply IH.
  - destruct (call_stat_unknown hd stat da E) as [-> ->]. reflexivity.
Qed.

(** When the functions of the library return and the request of an
    in-memory call names something that [stats_dict] does not hold,
    [stats_dict.get] gives [None] for the first such name and calling it
    raises [TypeError], after the statistics requested before it were
    computed. *)
Theorem unknown_statistic_raises_TypeError hd v da stats k :
  is_dask da = false ->
  hd_returns hd ->
  first_unknown_stat stats = Some k ->
  temporal_statistics hd v da stats = Raise none_not_callable.
Proof.
  intros Hd Hr Hk. unfold temporal_statistics. rewrite Hd.
  destruct stats as [| first rest]; [discriminate |].
  rewrite index_head. cbn [bind tl].
  unfold first_unknown_stat in Hk. cbn [find] in Hk.
  destruct (mem first hd_names) eqn:E; cbn [negb] in Hk.
  - pose proof (call_stat_known hd first
                  (pixels (zero_fill da)) Hr E) as C.
    unfold first_stat.
    destruct (is_fourier first).
    + destruct C as (n1 & n2 & n3 & ->). cbn [bind three_of].
      now rewrite (other_stats_unknown _ _ k Hr _ _ Hk).
    + destruct C as (l & ->). cbn [bind one_of].
      now rewrite (other_stats_unknown _ _ k Hr _ _ Hk).
  - unfold first_stat.
    destruct (call_stat_unknown hd first (pixels (zero_fill da)) E)
      as [-> ->].
    reflexivity.
Qed.

Lemma unknown_statistic_raises_TypeError_witness :
  temporal_statistics hd_zeros xr_0_16 da_spec
    ["f_std"; "abs_change"; "mean"; "median"]
  = Raise none_not_callable.
Proof.
  apply (unknown_statistic_raises_TypeError hd_zeros xr_0_16 da_spec
           ["f_std"; "abs_change"; "mean"; "median"] "mean").
  - reflexivity.
  - intros da. repeat split; eexists; reflexivity.
  - reflexivity.
Defined.

(** ** [allNaN_arg] on a grid with a never-observed pixel *)

Lemma allNaN_arg_with_valid_cell_witness :
  exists y,
    allNaN_arg [[Fin (3#10); NaN; Fin (1#10)]; [NaN; NaN; NaN]] "min"
    = Ok (Some y)
    /\ length y = length [[Fin (3#10); NaN; Fin (1#10)]; [NaN; NaN; NaN]]
    /\ forall p s,
         nth_error [[Fin (3#10); NaN; Fin (1#10)]; [NaN; NaN; NaN]] p
         = Some s ->
         exists c,
           nth_error y p = Some c
           /\ if forallb is_nan s then c = NaN
              else exists i,
                  c = of_Z (Z.of_nat i)
                  /\ (if String.eqb "min" "max" then first_greatest
                      else first_least)
                       (map (fillna
                               (substitute
                                  [[Fin (3#10); NaN; Fin (1#10)];
                                   [NaN; NaN; NaN]] "min")) s) i.
Proof.
  apply (allNaN_arg_with_valid_cell
           [[Fin (3#10); NaN; Fin (1#10)]; [NaN; NaN; NaN]] "min").
  - right. reflexivity.
  - repeat constructor; discriminate.
  - exists (Fin (3#10)). split; [simpl; auto | reflexivity].
Defined.
